(** * The sales-prediction endpoint of [app.py]

    A shallow embedding of the [/predict] handler: the JSON payload, the
    presence and type checks, the closed-store shortcut, the feature
    encoding, and the two calls to the unpickled artifacts (scaler and
    model), followed by the properties of the handler. *)

From Stdlib Require Import ZArith String Ascii List Bool Lia.
From Stdlib Require Import Floats.SpecFloat.
From stdpp Require Import gmap strings list fin_maps.

#[local] Set Warnings "-register-all".
#[local] Open Scope string_scope.
#[local] Open Scope Z_scope.
#[local] Open Scope list_scope.

(** ** Python values *)

(** What [request.get_json()] can return, and what [jsonify] is given: the
    values of Python's [json] module. [JNull] is [None], [JInt] an [int] of
    unbounded size, [JFloat] a binary64 [float], [JObj] a [dict] with [str]
    keys. The characters of a [str] are the bytes of [string]. *)
Inductive json : Type :=
  | JNull
  | JBool (b : bool)
  | JInt (z : Z)
  | JFloat (f : spec_float)
  | JStr (s : string)
  | JArr (l : list json)
  | JObj (m : gmap string json).

Module Py.

(** [isinstance(v, int)]: [bool] is a subclass of [int]. *)
Definition isinstance_int (v : json) : bool :=
  match v with
  | JInt _ | JBool _ => true
  | _ => false
  end.

(** [isinstance(v, str)]. *)
Definition isinstance_str (v : json) : bool :=
  match v with
  | JStr _ => true
  | _ => false
  end.

(** The integer an [int] stands for in a comparison; [True] is 1 and
    [False] is 0. The handler consults it only behind [isinstance_int]. *)
Definition int_value (v : json) : Z :=
  match v with
  | JInt z => z
  | JBool b => Z.b2z b
  | _ => 0
  end.

(** The text of a [str]; consulted only behind [isinstance_str]. *)
Definition str_value (v : json) : string :=
  match v with
  | JStr s => s
  | _ => ""
  end.

(** [v in [z1, z2, ...]] for an integer [v]. *)
Definition in_ints (v : json) (l : list Z) : bool :=
  existsb (Z.eqb (int_value v)) l.

(** [v in [s1, s2, ...]] for a string [v]. *)
Definition in_strs (v : json) (l : list string) : bool :=
  existsb (String.eqb (str_value v)) l.

(** [x == s] for a [str] [s]: no value of another type equals a [str]. *)
Definition eq_str (s : string) (x : json) : bool :=
  match x with
  | JStr t => String.eqb s t
  | _ => false
  end.

(** [0.0]. *)
Definition float_zero : spec_float := S754_zero false.

End Py.

(** ** [datetime.strptime(s, "%d/%m/%Y").toordinal()]

    The standard library is not part of the repository; this module
    transcribes the parts of CPython's [_strptime.py] and [_pydatetime.py]
    the call goes through. [\d] is taken on the ASCII digits: the module is
    the library on ASCII text. The library also reads the other decimal
    digits of Unicode in the year and in the second place of the day, so a
    date written with them has an ordinal there and none here. *)
Module Datetime.

Definition cls : Type := ascii -> bool.

Definition chr (c : ascii) : cls := Ascii.eqb c.

Definition rng (lo hi : ascii) : cls := fun c =>
  (N_of_ascii lo <=? N_of_ascii c)%N && (N_of_ascii c <=? N_of_ascii hi)%N.

Definition digit : cls := rng "0" "9".

(** A piece of the compiled format: a literal character, or a named group
    whose alternatives are tried from left to right. *)
Inductive item : Type :=
  | Lit (c : ascii)
  | Group (alts : list (list cls)).

(** [%d]: [3[0-1]|[1-2]\d|0[1-9]|[1-9]| [1-9]]. *)
Definition re_d : item :=
  Group [ [chr "3"; rng "0" "1"]; [rng "1" "2"; digit]; [chr "0"; rng "1" "9"];
          [rng "1" "9"]; [chr " "; rng "1" "9"] ].

(** [%m]: [1[0-2]|0[1-9]|[1-9]]. *)
Definition re_m : item :=
  Group [ [chr "1"; rng "0" "2"]; [chr "0"; rng "1" "9"]; [rng "1" "9"] ].

(** [%Y]: [\d\d\d\d]. *)
Definition re_Y : item := Group [ [digit; digit; digit; digit] ].

(** The format ["%d/%m/%Y"]. *)
Definition format_regex : list item :=
  [re_d; Lit "/"; re_m; Lit "/"; re_Y].

(** One alternative against the front of the input: the text it consumes
    and what is left. *)
Fixpoint match_classes (p : list cls) (s : list ascii)
  : option (list ascii * list ascii) :=
  match p with
  | [] => Some ([], s)
  | k :: p' =>
      match s with
      | [] => None
      | c :: s' =>
          if k c then
            match match_classes p' s' with
            | Some (g, r) => Some (c :: g, r)
            | None => None
            end
          else None
      end
  end.

Fixpoint first_some {A B : Type} (f : A -> option B) (l : list A) : option B :=
  match l with
  | [] => None
  | a :: l' => match f a with Some b => Some b | None => first_some f l' end
  end.

(** [re.match]: anchored at the start, backtracking over the alternatives
    of each group; the texts of the groups and the unmatched rest. *)
Fixpoint re_match (p : list item) (s : list ascii)
  : option (list (list ascii) * list ascii) :=
  match p with
  | [] => Some ([], s)
  | Lit c :: p' =>
      match s with
      | c' :: s' => if Ascii.eqb c c' then re_match p' s' else None
      | [] => None
      end
  | Group alts :: p' =>
      first_some
        (fun alt =>
           match match_classes alt s with
           | Some (g, s') =>
               match re_match p' s' with
               | Some (gs, r) => Some (g :: gs, r)
               | None => None
               end
           | None => None
           end)
        alts
  end.

(** [int(text)] on the text of a group: digits, after leading blanks. *)
Definition int_of_text (g : list ascii) : Z :=
  fold_left
    (fun acc c => if digit c then 10 * acc + (Z.of_N (N_of_ascii c) - 48) else acc)
    g 0.

Definition _is_leap (year : Z) : bool :=
  (year mod 4 =? 0) && (negb (year mod 100 =? 0) || (year mod 400 =? 0)).

Definition _days_before_year (year : Z) : Z :=
  let y := year - 1 in
  y * 365 + y / 4 - y / 100 + y / 400.

Definition _DAYS_IN_MONTH : list Z :=
  [-1; 31; 28; 31; 30; 31; 30; 31; 31; 30; 31; 30; 31].

Definition _DAYS_BEFORE_MONTH : list Z :=
  [-1; 0; 31; 59; 90; 120; 151; 181; 212; 243; 273; 304; 334].

Definition _days_in_month (year month : Z) : Z :=
  if (month =? 2) && _is_leap year then 29
  else nth (Z.to_nat month) _DAYS_IN_MONTH 0.

Definition _days_before_month (year month : Z) : Z :=
  nth (Z.to_nat month) _DAYS_BEFORE_MONTH 0
  + Z.b2z ((2 <? month) && _is_leap year).

(** [date(year, month, day).toordinal()], [None] when the constructor
    raises [ValueError]. *)
Definition _ymd2ord (year month day : Z) : option Z :=
  if negb ((1 <=? year) && (year <=? 9999)) then None
  else if negb ((1 <=? month) && (month <=? 12)) then None
  else if negb ((1 <=? day) && (day <=? _days_in_month year month)) then None
  else Some (_days_before_year year + _days_before_month year month + day).

(** The ordinal of the date [s] denotes, [None] when [strptime] raises
    [ValueError]: no match, unconverted data, or no such calendar day. *)
Definition strptime_ordinal (s : string) : option Z :=
  match re_match format_regex (list_ascii_of_string s) with
  | Some ([d; m; Y], []) => _ymd2ord (int_of_text Y) (int_of_text m) (int_of_text d)
  | _ => None
  end.

End Datetime.

(** The text has ASCII characters only. *)
Definition ascii_only (s : string) : bool :=
  forallb (fun c => (N_of_ascii c <? 128)%N) (list_ascii_of_string s).

(** ** The handler's effects

    The body of [predict] returns early with a response, raises, or goes
    on; the calls it makes to the two artifacts are recorded in order. *)

(** A Flask response: status code and the [dict] given to [jsonify]. *)
Record response : Type := Resp { status : Z; body : gmap string json }.

(** [jsonify(d)] and [jsonify(d), code]. *)
Definition jsonify (d : gmap string json) : response := Resp 200 d.
Definition jsonify_status (d : gmap string json) (code : Z) : response := Resp code d.

Inductive call (Scaled : Type) : Type :=
  | CallTransform (batch : list (list json))
  | CallPredict (x : Scaled).
Arguments CallTransform {Scaled} batch.
Arguments CallPredict {Scaled} x.

Inductive outcome (A : Type) : Type :=
  | Val (a : A)
  | Return (r : response)
  | Raise (details : string).
Arguments Val {A} a.
Arguments Return {A} r.
Arguments Raise {A} details.

Definition M (Scaled A : Type) : Type :=
  list (call Scaled) -> outcome A * list (call Scaled).

Definition ret {S A} (a : A) : M S A := fun log => (Val a, log).

Definition bind {S A B} (m : M S A) (k : A -> M S B) : M S B := fun log =>
  match m log with
  | (Val a, log') => k a log'
  | (Return r, log') => (Return r, log')
  | (Raise e, log') => (Raise e, log')
  end.

(** [return r] in the body of the handler. *)
Definition return_ {S A} (r : response) : M S A := fun log => (Return r, log).

(** [raise], with [str(e)] of the exception. *)
Definition raise {S A} (details : string) : M S A := fun log => (Raise details, log).

Notation "x <- m ;; k" := (bind m (fun x => k))
  (at level 90, m at level 80, right associativity).
Notation "m ;;; k" := (bind m (fun _ => k))
  (at level 90, right associativity).

(** [if c: return r]. *)
Definition return_if {S} (c : bool) (r : response) : M S unit :=
  if c then return_ r else ret tt.

(** [[x for x in l if p(x)]] where [p] may raise. *)
Fixpoint filterM {S A} (p : A -> M S bool) (l : list A) : M S (list A) :=
  match l with
  | [] => ret []
  | x :: l' =>
      b <- p x ;;
      r <- filterM p l' ;;
      ret (if b then x :: r else r)
  end.

(** [l[i] = v] on a list: negative indices count from the end, an index
    out of range raises [IndexError]. *)
Definition setitem {S} (l : list json) (i : Z) (v : json) : M S (list json) :=
  let n := Z.of_nat (length l) in
  if (0 <=? i) && (i <? n) then ret (<[Z.to_nat i := v]> l)
  else if (- n <=? i) && (i <? 0) then ret (<[Z.to_nat (n + i) := v]> l)
  else raise "list assignment index out of range".

(** ** The handler *)

Definition required_fields : list string :=
  [ "store_ID"; "day_of_week"; "date"; "nb_customers_on_day";
    "open"; "promotion"; "state_holiday"; "school_holiday" ].

(** The table of the three holiday slots. *)
Definition state_map : gmap string (list json) :=
  {[ "0" := [JInt 0; JInt 0; JInt 0];
     "a" := [JInt 1; JInt 0; JInt 0];
     "b" := [JInt 0; JInt 1; JInt 0];
     "c" := [JInt 0; JInt 0; JInt 1] ]}.

(** [state_map.get(k, [0, 0, 0])]. *)
Definition state_map_get (k : string) : list json :=
  default [JInt 0; JInt 0; JInt 0] (state_map !! k).

Definition bad_request (msg : string) : response :=
  jsonify_status {[ "error" := JStr msg ]} 400.

Definition shortcut_response : response :=
  jsonify {[ "prediction" := JFloat Py.float_zero;
             "message" := JStr "Store is closed or has no customers. Sales prediction is set to 0." ]}.

Definition date_format_response : response :=
  bad_request "date must be in format DD/MM/YYYY".

Definition warned_response (prediction : spec_float) : response :=
  jsonify {[ "prediction" := JFloat prediction;
             "warning" := JStr "Very few customers on this day. Prediction may be unreliable." ]}.

Definition plain_response (prediction : spec_float) : response :=
  jsonify {[ "prediction" := JFloat prediction ]}.

Definition internal_error (details : string) : response :=
  jsonify_status {[ "error" := JStr "Internal server error";
                    "details" := JStr details ]} 500.

(** [home]: the welcome route. *)
Definition home : response :=
  jsonify {[ "message" := JStr "Welcome to the Sales Prediction API. Use POST /predict with the required fields." ]}.

Section Handler.

(** The unpickled artifacts and the parts of the interpreter the handler
    leans on. A call to an artifact gives its result or raises; [inl] has
    [str(e)] of the exception. *)
Variable Scaled : Type.
(** [scaler.transform(batch)]. *)
Variable scaler_transform : list (list json) -> string + Scaled.
(** [model.predict(x)[0]], as [float] converts it. *)
Variable model_predict : Scaled -> string + spec_float.
(** [round(x, 2)] on a [float]. *)
Variable round2 : spec_float -> spec_float.
(** [str(e)] of the [TypeError] that [k in data] and [data[k]] raise on a
    payload that does not support the operation. *)
Variable type_error_details : json -> string.

#[local] Abbreviation M := (M Scaled).

(** [field in data]. *)
Definition contains (data : json) (field : string) : M bool :=
  match data with
  | JObj m => ret (bool_decide (is_Some (m !! field)))
  | JArr l => ret (existsb (Py.eq_str field) l)
  | JStr s => ret (bool_decide (is_Some (String.index 0 field s)))
  | _ => raise (type_error_details data)
  end.

(** [data[key]] for a [str] key: [KeyError] on a [dict] without the key,
    [TypeError] on a list or a string. *)
Definition getitem (data : json) (key : string) : M json :=
  match data with
  | JObj m =>
      match m !! key with
      | Some v => ret v
      | None => raise ("'" +:+ key +:+ "'")
      end
  | _ => raise (type_error_details data)
  end.

Definition transform (batch : list (list json)) : M Scaled := fun log =>
  (match scaler_transform batch with inr x => Val x | inl e => Raise e end,
   log ++ [CallTransform batch]).

Definition predict_first (x : Scaled) : M spec_float := fun log =>
  (match model_predict x with inr y => Val y | inl e => Raise e end,
   log ++ [CallPredict x]).

(** Lines 32-77: payload, presence, types and domains. *)
Definition validation (data : json) : M unit :=
  return_if (match data with JNull => true | _ => false end)
    (jsonify_status {[ "error" := JStr "Invalid or missing JSON payload" ]} 400) ;;;
  missing_fields <- filterM (fun field => b <- contains data field ;; ret (negb b))
                      required_fields ;;
  return_if (match missing_fields with [] => false | _ => true end)
    (jsonify_status {[ "error" := JStr "Missing required fields";
                       "missing" := JArr (JStr <$> missing_fields) ]} 400) ;;;
  v <- getitem data "store_ID" ;;
  return_if (negb (Py.isinstance_int v) || (Py.int_value v <? 0))
    (bad_request "store_ID must be a positive integer") ;;;
  v <- getitem data "day_of_week" ;;
  return_if (negb (Py.isinstance_int v)
             || negb ((1 <=? Py.int_value v) && (Py.int_value v <=? 7)))
    (bad_request "day_of_week must be an integer between 1 and 7") ;;;
  v <- getitem data "date" ;;
  return_if (negb (Py.isinstance_str v))
    (bad_request "date must be a string in format DD/MM/YYYY") ;;;
  v <- getitem data "nb_customers_on_day" ;;
  return_if (negb (Py.isinstance_int v) || (Py.int_value v <? 0))
    (bad_request "nb_customers_on_day must be a positive integer") ;;;
  v <- getitem data "open" ;;
  return_if (negb (Py.isinstance_int v) || negb (Py.in_ints v [0; 1]))
    (bad_request "open must be 0 or 1") ;;;
  v <- getitem data "promotion" ;;
  return_if (negb (Py.isinstance_int v) || negb (Py.in_ints v [0; 1]))
    (bad_request "promotion must be 0 or 1") ;;;
  v <- getitem data "school_holiday" ;;
  return_if (negb (Py.isinstance_int v) || negb (Py.in_ints v [0; 1]))
    (bad_request "school_holiday must be 0 or 1") ;;;
  v <- getitem data "state_holiday" ;;
  return_if (negb (Py.isinstance_str v) || negb (Py.in_strs v ["0"; "a"; "b"; "c"]))
    (bad_request "state_holiday must be one of: '0', 'a', 'b', 'c'").

(** Lines 79-84: a closed store or a day without customers sells nothing. *)
Definition business_rule (data : json) : M unit :=
  o <- getitem data "open" ;;
  n <- getitem data "nb_customers_on_day" ;;
  return_if ((Py.int_value o =? 0) || (Py.int_value n =? 0)) shortcut_response.

(** Lines 86-115: [input_vector]. *)
Definition encoding (data : json) : M (list json) :=
  date <- getitem data "date" ;;
  match Datetime.strptime_ordinal (Py.str_value date) with
  | None => return_ date_format_response
  | Some date_ordinal =>
      let dow_encoded := replicate 6 (JInt 0) in
      dow <- getitem data "day_of_week" ;;
      dow_encoded <-
        (if (2 <=? Py.int_value dow) && (Py.int_value dow <=? 7)
         then setitem dow_encoded (Py.int_value dow - 2) (JInt 1)
         else ret dow_encoded) ;;
      sh <- getitem data "state_holiday" ;;
      let state_encoded := state_map_get (Py.str_value sh) in
      nb <- getitem data "nb_customers_on_day" ;;
      promotion <- getitem data "promotion" ;;
      school_holiday <- getitem data "school_holiday" ;;
      open <- getitem data "open" ;;
      ret ([JInt date_ordinal; nb; promotion; school_holiday; open]
             ++ state_encoded ++ dow_encoded)
  end.

(** Lines 117-133: scale, predict, round, warn on a quiet day. *)
Definition prediction (data : json) (input_vector : list json) : M response :=
  input_scaled <- transform [input_vector] ;;
  prediction <- predict_first input_scaled ;;
  nb <- getitem data "nb_customers_on_day" ;;
  if Py.int_value nb <? 200 then ret (warned_response (round2 prediction))
  else ret (plain_response (round2 prediction)).

Definition predict_body (data : json) : M response :=
  validation data ;;;
  business_rule data ;;;
  input_vector <- encoding data ;;
  prediction data input_vector.

(** [try: ... except Exception as e: return jsonify({...}), 500] around
    the body: the response, and the calls made to the artifacts. *)
Definition predict (data : json) : response * list (call Scaled) :=
  match predict_body data [] with
  | (Val r, log) => (r, log)
  | (Return r, log) => (r, log)
  | (Raise e, log) => (internal_error e, log)
  end.

(** Lines 86-115 with the library call left open: [strptime s] is what
    [datetime.strptime(s, "%d/%m/%Y").toordinal()] returns, [None] when it
    raises [ValueError]. *)
Definition encoding_with (strptime : string -> option Z) (data : json) : M (list json) :=
  date <- getitem data "date" ;;
  match strptime (Py.str_value date) with
  | None => return_ date_format_response
  | Some date_ordinal =>
      let dow_encoded := replicate 6 (JInt 0) in
      dow <- getitem data "day_of_week" ;;
      dow_encoded <-
        (if (2 <=? Py.int_value dow) && (Py.int_value dow <=? 7)
         then setitem dow_encoded (Py.int_value dow - 2) (JInt 1)
         else ret dow_encoded) ;;
      sh <- getitem data "state_holiday" ;;
      let state_encoded := state_map_get (Py.str_value sh) in
      nb <- getitem data "nb_customers_on_day" ;;
      promotion <- getitem data "promotion" ;;
      school_holiday <- getitem data "school_holiday" ;;
      open <- getitem data "open" ;;
      ret ([JInt date_ordinal; nb; promotion; school_holiday; open]
             ++ state_encoded ++ dow_encoded)
  end.

Definition predict_body_with (strptime : string -> option Z) (data : json) : M response :=
  validation data ;;;
  business_rule data ;;;
  input_vector <- encoding_with strptime data ;;
  prediction data input_vector.

(** The handler around any [strptime]; [predict] is the handler around
    [Datetime.strptime_ordinal]. *)
Definition predict_with (strptime : string -> option Z) (data : json)
  : response * list (call Scaled) :=
  match predict_body_with strptime data [] with
  | (Val r, log) => (r, log)
  | (Return r, log) => (r, log)
  | (Raise e, log) => (internal_error e, log)
  end.

End Handler.

Arguments predict {Scaled}.
Arguments validation {Scaled}.
Arguments encoding {Scaled}.
Arguments business_rule {Scaled}.
Arguments prediction {Scaled}.
Arguments predict_body {Scaled}.
Arguments encoding_with {Scaled}.
Arguments predict_body_with {Scaled}.
Arguments predict_with {Scaled}.

(** ** Stand-ins for the artifacts

    A scaler that hands the integers of the row on, and a model that answers
    with one fixed number. *)
Definition fake_transform (batch : list (list json)) : string + list (list Z) :=
  inr (fmap (M := list) (fmap (M := list) Py.int_value) batch).
Definition fake_predict (x : list (list Z)) : string + spec_float :=
  inr (S754_finite false 4503599627370496 (-42)).
Definition fake_round (x : spec_float) : spec_float := x.
Definition fake_details (data : json) : string := "unsupported operand".

Definition predict_fake : json -> response * list (call (list (list Z))) :=
  predict fake_transform fake_predict fake_round fake_details.

Definition example_request : gmap string json :=
  {[ "store_ID" := JInt 1; "day_of_week" := JInt 3; "date" := JStr "15/06/2015";
     "nb_customers_on_day" := JInt 500; "open" := JInt 1; "promotion" := JInt 1;
     "state_holiday" := JStr "0"; "school_holiday" := JInt 0 ]}.

(** The example store, closed on a day with a hundred customers. *)
Definition closed_request : gmap string json :=
  <["open" := JInt 0]> (<["nb_customers_on_day" := JInt 100]> example_request).

(** The example store on a day with 150 customers. *)
Definition quiet_request : gmap string json :=
  <["nb_customers_on_day" := JInt 150]> example_request.

(** The example request without its date and its promotion flag. *)
Definition partial_request : gmap string json :=
  delete "promotion" (delete "date" example_request).

(** The example request with a day that no month has. *)
Definition unparseable_request : gmap string json :=
  <["date" := JStr "32/01/2015"]> example_request.

(** The closed store with a date that is no date. *)
Definition closed_undated_request : gmap string json :=
  <["date" := JStr "not-a-date"]> closed_request.

(** The example request with a key the handler does not read. *)
Definition annotated_request : gmap string json :=
  <["note" := JStr "resent"]> example_request.

(** The row the example request is encoded to. *)
Definition example_vector : list json :=
  [JInt 735764; JInt 500; JInt 1; JInt 0; JInt 1;
   JInt 0; JInt 0; JInt 0;
   JInt 0; JInt 1; JInt 0; JInt 0; JInt 0; JInt 0].

(** A scaler that always raises, and the handler around it. *)
Definition failing_transform (batch : list (list json)) : string + unit :=
  inl "scaler unavailable".
Definition predict_failing : json -> response * list (call unit) :=
  predict failing_transform (fun _ => inl "model unavailable") fake_round fake_details.

(** ** The validator's rules, field by field *)

(** The value under [k], when the mapping has one. *)
Definition field (d : gmap string json) (k : string) : json :=
  default JNull (d !! k).

Definition int_of (d : gmap string json) (k : string) : Z := Py.int_value (field d k).
Definition str_of (d : gmap string json) (k : string) : string := Py.str_value (field d k).

(** [k] is present, of type [int], and in the domain [ok]. *)
Definition int_field (d : gmap string json) (k : string) (ok : Z -> bool) : bool :=
  match d !! k with
  | Some v => Py.isinstance_int v && ok (Py.int_value v)
  | None => false
  end.

(** [k] is present, of type [str], and in the domain [ok]. *)
Definition str_field (d : gmap string json) (k : string) (ok : string -> bool) : bool :=
  match d !! k with
  | Some v => Py.isinstance_str v && ok (Py.str_value v)
  | None => false
  end.

Definition zero_or_one (z : Z) : bool := (z =? 0) || (z =? 1).

(** All eight keys present, typed and in their domains. *)
Definition valid (d : gmap string json) : bool :=
  int_field d "store_ID" (fun z => 0 <=? z)
  && int_field d "day_of_week" (fun z => (1 <=? z) && (z <=? 7))
  && str_field d "date" (fun _ => true)
  && int_field d "nb_customers_on_day" (fun z => 0 <=? z)
  && int_field d "open" zero_or_one
  && int_field d "promotion" zero_or_one
  && int_field d "school_holiday" zero_or_one
  && str_field d "state_holiday" (fun s => existsb (String.eqb s) ["0"; "a"; "b"; "c"]).

(** The required keys the mapping lacks, in the order of [required_fields]. *)
Definition missing (d : gmap string json) : list string :=
  filter (fun k => d !! k = None) required_fields.

(** The condition of the business rule. *)
Definition closed_or_empty (d : gmap string json) : bool :=
  (int_of d "open" =? 0) || (int_of d "nb_customers_on_day" =? 0).

(** Six slots for the days 2 to 7. *)
Definition dow_onehot (dow : Z) : list json :=
  if (2 <=? dow) && (dow <=? 7)
  then <[Z.to_nat (dow - 2) := JInt 1]> (replicate 6 (JInt 0))
  else replicate 6 (JInt 0).

(** The vector the handler builds from a valid mapping whose date has the
    ordinal [ord]. *)
Definition feature_vector (d : gmap string json) (ord : Z) : list json :=
  [JInt ord; field d "nb_customers_on_day"; field d "promotion";
   field d "school_holiday"; field d "open"]
    ++ state_map_get (str_of d "state_holiday")
    ++ dow_onehot (int_of d "day_of_week").

(** The number of slots of [l] that are set. *)
Definition ones (l : list json) : nat :=
  length (filter (fun x => Py.int_value x = 1) l).

(** Two rows a numeric array cannot tell apart: [True] is 1, [False] is 0. *)
Definition same_numbers (r1 r2 : list json) : Prop :=
  Py.int_value <$> r1 = Py.int_value <$> r2.

Definition has_field (r : response) (k : string) : bool :=
  bool_decide (is_Some (body r !! k)).

(** The type and domain rule of each field with the message of its
    rejection, in the order the handler applies them. *)
Definition field_rules : list (string * (json -> bool) * string) :=
  [ ("store_ID",
     fun v => Py.isinstance_int v && (0 <=? Py.int_value v),
     "store_ID must be a positive integer");
    ("day_of_week",
     fun v => Py.isinstance_int v && ((1 <=? Py.int_value v) && (Py.int_value v <=? 7)),
     "day_of_week must be an integer between 1 and 7");
    ("date",
     fun v => Py.isinstance_str v,
     "date must be a string in format DD/MM/YYYY");
    ("nb_customers_on_day",
     fun v => Py.isinstance_int v && (0 <=? Py.int_value v),
     "nb_customers_on_day must be a positive integer");
    ("open",
     fun v => Py.isinstance_int v && zero_or_one (Py.int_value v),
     "open must be 0 or 1");
    ("promotion",
     fun v => Py.isinstance_int v && zero_or_one (Py.int_value v),
     "promotion must be 0 or 1");
    ("school_holiday",
     fun v => Py.isinstance_int v && zero_or_one (Py.int_value v),
     "school_holiday must be 0 or 1");
    ("state_holiday",
     fun v => Py.isinstance_str v
              && existsb (String.eqb (Py.str_value v)) ["0"; "a"; "b"; "c"],
     "state_holiday must be one of: '0', 'a', 'b', 'c'") ].

(** The message of the first rule, in that order, that the mapping breaks. *)
Definition first_violation (d : gmap string json) : option string :=
  snd <$> find (fun r => negb (snd (fst r) (field d (fst (fst r))))) field_rules.

(** The answer to a mapping that lacks the keys [ms]. *)
Definition missing_response (ms : list string) : response :=
  jsonify_status {[ "error" := JStr "Missing required fields";
                    "missing" := JArr (JStr <$> ms) ]} 400.

(** The answer to a payload that is [None]. *)
Definition no_payload_response : response :=
  jsonify_status {[ "error" := JStr "Invalid or missing JSON payload" ]} 400.

(** The last day [datetime] knows, 31/12/9999. *)
Definition max_ordinal : Z := 3652059.

(** The year, month and day that [strptime] reads in [s], before the date
    is built from them. *)
Definition strptime_ymd (s : string) : option (Z * Z * Z) :=
  match Datetime.re_match Datetime.format_regex (list_ascii_of_string s) with
  | Some ([d; m; Y], []) =>
      Some (Datetime.int_of_text Y, Datetime.int_of_text m, Datetime.int_of_text d)
  | _ => None
  end.

(** Calendar order on year, month, day. *)
Definition earlier (a b : Z * Z * Z) : Prop :=
  let '(y, m, d) := a in
  let '(y', m', d') := b in
  y < y' \/ (y = y' /\ (m < m' \/ (m = m' /\ d < d'))).

(** ** Running the handler *)

Section Run.

Context {Scaled : Type}.
Variable scaler_transform : list (list json) -> string + Scaled.
Variable model_predict : Scaled -> string + spec_float.
Variable round2 : spec_float -> spec_float.
Variable type_error_details : json -> string.

#[local] Abbreviation validation' := (validation (Scaled := Scaled) type_error_details).
#[local] Abbreviation predict' :=
  (predict scaler_transform model_predict round2 type_error_details).

(** What the handler does with the vector [v] once it is built. *)
Definition model_path (d : gmap string json) (v : list json)
  : response * list (call Scaled) :=
  match scaler_transform [v] with
  | inl e => (internal_error e, [CallTransform [v]])
  | inr x =>
      match model_predict x with
      | inl e => (internal_error e, [CallTransform [v]; CallPredict x])
      | inr y =>
          (if int_of d "nb_customers_on_day" <? 200
           then warned_response (round2 y) else plain_response (round2 y),
           [CallTransform [v]; CallPredict x])
      end
  end.

(** The handler on a mapping, as a cascade of decisions on its fields. *)
Definition object_answer (d : gmap string json) : response * list (call Scaled) :=
  match missing d with
  | _ :: _ => (missing_response (missing d), [])
  | [] =>
      match first_violation d with
      | Some msg => (bad_request msg, [])
      | None =>
          if closed_or_empty d then (shortcut_response, [])
          else match Datetime.strptime_ordinal (str_of d "date") with
               | None => (date_format_response, [])
               | Some ord => model_path d (feature_vector d ord)
               end
      end
  end.

Lemma missing_fields_run (d : gmap string json) (l : list string) log :
  filterM (fun k => b <- contains Scaled type_error_details (JObj d) k ;; ret (negb b)) l log
  = (Val (filter (fun k => d !! k = None) l), log).
Proof.
  revert log. induction l as [|k l IH]; intros log; [reflexivity|].
  cbn [filterM]. unfold bind at 1. unfold bind at 1. cbn [contains ret].
  unfold bind at 1. rewrite IH. cbn [ret].
  rewrite filter_cons. destruct (d !! k) as [v|] eqn:E.
  - rewrite bool_decide_true by eauto. cbn. rewrite decide_False by congruence. done.
  - rewrite bool_decide_false by (intros [? ?]; congruence). cbn.
    rewrite decide_True by done. done.
Qed.

Lemma bind_getitem {B} (d : gmap string json) k v (f : json -> M Scaled B) log :
  d !! k = Some v ->
  bind (getitem Scaled type_error_details (JObj d) k) f log = f v log.
Proof. intros E. unfold bind, getitem. rewrite E. reflexivity. Qed.

Lemma bind_return_if {B} (c : bool) r (f : unit -> M Scaled B) log :
  bind (return_if c r) f log = if c then (Return r, log) else f tt log.
Proof. destruct c; reflexivity. Qed.

Lemma in_ints_01 v : Py.in_ints v [0; 1] = zero_or_one (Py.int_value v).
Proof. unfold Py.in_ints, zero_or_one. cbn. now rewrite orb_false_r. Qed.

Lemma int_field_inv d k ok :
  int_field d k ok = true ->
  exists v, d !! k = Some v /\ Py.isinstance_int v = true /\ ok (Py.int_value v) = true.
Proof.
  unfold int_field. destruct (d !! k) as [v|]; [|discriminate].
  intros [? ?]%andb_prop. eauto.
Qed.

Lemma str_field_inv d k ok :
  str_field d k ok = true ->
  exists v, d !! k = Some v /\ Py.isinstance_str v = true /\ ok (Py.str_value v) = true.
Proof.
  unfold str_field. destruct (d !! k) as [v|]; [|discriminate].
  intros [? ?]%andb_prop. eauto.
Qed.

Lemma filter_absent_nil (d : gmap string json) (l : list string) :
  filter (fun k => d !! k = None) l = [] <-> forall k, k ∈ l -> is_Some (d !! k).
Proof.
  induction l as [|k l IH].
  - split; [|done]. intros _ k Hk. by apply elem_of_nil in Hk.
  - rewrite filter_cons. destruct (decide (d !! k = None)) as [E|E].
    + split; [discriminate|]. intros H.
      destruct (H k) as [v Hv]; [left|]. congruence.
    + rewrite IH. split.
      * intros H k' Hk'. apply elem_of_cons in Hk' as [E'|Hk']; [|by apply H].
        subst k'. destruct (d !! k); [eauto|done].
      * intros H k' Hk'. apply H. by right.
Qed.

Lemma missing_nil_iff (d : gmap string json) :
  missing d = [] <-> forall k, k ∈ required_fields -> is_Some (d !! k).
Proof. apply filter_absent_nil. Qed.

Lemma valid_fields (d : gmap string json) :
  valid d = true ->
  exists v1 v2 v3 v4 v5 v6 v7 v8,
    d !! "store_ID" = Some v1 /\ d !! "day_of_week" = Some v2
    /\ d !! "date" = Some v3 /\ d !! "nb_customers_on_day" = Some v4
    /\ d !! "open" = Some v5 /\ d !! "promotion" = Some v6
    /\ d !! "school_holiday" = Some v7 /\ d !! "state_holiday" = Some v8.
Proof.
  unfold valid. intros H.
  repeat (apply andb_prop in H; destruct H as [H ?]).
  repeat match goal with
         | H : int_field _ _ _ = true |- _ => apply int_field_inv in H; destruct H as (?&?&_)
         | H : str_field _ _ _ = true |- _ => apply str_field_inv in H; destruct H as (?&?&_)
         end.
  repeat eexists; eassumption.
Qed.

Lemma valid_missing (d : gmap string json) : valid d = true -> missing d = [].
Proof.
  unfold valid. intros H.
  repeat (apply andb_prop in H; destruct H as [H ?]).
  repeat match goal with
         | H : int_field _ _ _ = true |- _ => apply int_field_inv in H; destruct H as (?&?&_)
         | H : str_field _ _ _ = true |- _ => apply str_field_inv in H; destruct H as (?&?&_)
         end.
  apply missing_nil_iff. intros k Hk. unfold required_fields in Hk.
  repeat (apply elem_of_cons in Hk; destruct Hk as [->|Hk]; [eauto|]).
  by apply elem_of_nil in Hk.
Qed.

(** The validator lets a valid mapping through, untouched. *)
Lemma validation_valid (d : gmap string json) log :
  valid d = true -> validation' (JObj d) log = (Val tt, log).
Proof.
  intros H. pose proof (valid_missing d H) as Hm. unfold missing in Hm.
  unfold valid in H.
  repeat (apply andb_prop in H; destruct H as [H ?]).
  repeat match goal with
         | H : int_field _ _ _ = true |- _ => apply int_field_inv in H; destruct H as (?&?&?&?)
         | H : str_field _ _ _ = true |- _ => apply str_field_inv in H; destruct H as (?&?&?&?)
         end.
  unfold validation. rewrite bind_return_if. unfold bind at 1.
  rewrite missing_fields_run, Hm. rewrite bind_return_if.
  repeat (erewrite bind_getitem by eassumption; rewrite ?bind_return_if).
  rewrite ?in_ints_01.
  repeat match goal with
         | H : Py.isinstance_int _ = true |- _ => rewrite H; clear H
         | H : Py.isinstance_str _ = true |- _ => rewrite H; clear H
         | H : zero_or_one _ = true |- _ => rewrite H; clear H
         | H : (0 <=? _) = true |- _ => rewrite Z.leb_antisym in H; rewrite negb_true_iff in H; rewrite H; clear H
         | H : (_ && _) = true |- _ => rewrite H; clear H
         end.
  cbn [negb orb].
  unfold return_if.
  match goal with
  | H : existsb _ _ = true |- _ => unfold Py.in_strs; rewrite H
  end.
  reflexivity.
Qed.

(** Whatever the validator rejects is answered with a 400 that is not the
    date-format answer of the encoder. *)
Lemma validation_invalid (d : gmap string json) log :
  valid d = false ->
  exists r, validation' (JObj d) log = (Return r, log)
            /\ status r = 400
            /\ body r !! "error" <> body date_format_response !! "error".
Proof.
  intros H. unfold validation. rewrite bind_return_if. unfold bind at 1.
  rewrite missing_fields_run. rewrite bind_return_if.
  destruct (filter _ required_fields) as [|k0 ks] eqn:Hm.
  2:{ eexists; split; [reflexivity|]. split; [reflexivity|]. vm_compute. discriminate. }
  pose proof (proj1 (missing_nil_iff d) Hm) as Hall.
  assert (forall k, In k required_fields -> is_Some (d !! k)) as Hall'
      by (intros k Hk; apply Hall, list_elem_of_In, Hk).
  unfold required_fields in Hall'. cbn [In] in Hall'.
  repeat match goal with
         | |- context [getitem _ _ (JObj d) ?k] =>
             let v := fresh "v" in let E := fresh "E" in
             destruct (Hall' k) as [v E]; [tauto|];
             erewrite (bind_getitem d k v) by exact E;
             rewrite bind_return_if;
             match goal with
             | |- context [if ?c then _ else _] =>
                 let C := fresh "C" in
                 destruct c eqn:C;
                 [eexists; split; [reflexivity|]; split; [reflexivity|];
                  vm_compute; discriminate|]
             end
         end.
  destruct (Hall' "state_holiday") as [v6 E6]; [tauto|].
  erewrite (bind_getitem d "state_holiday" v6) by exact E6.
  unfold return_if.
  destruct (negb (Py.isinstance_str v6) || _) eqn:C6.
  { eexists; split; [reflexivity|]; split; [reflexivity|]. vm_compute. discriminate. }
  exfalso. unfold valid, int_field, str_field in H.
  rewrite E, E0, E1, E2, E3, E4, E5, E6 in H.
  rewrite in_ints_01 in C3, C4, C5. unfold Py.in_strs in C6.
  repeat match goal with
         | C : _ || _ = false |- _ => apply orb_false_elim in C; destruct C as [? ?]
         | C : negb _ = false |- _ => apply negb_false_iff in C
         end.
  rewrite !(Z.leb_antisym _ 0) in H. revert H.
  repeat match goal with
         | C : _ = true |- _ => rewrite C; clear C
         | C : _ = false |- _ => rewrite C; clear C
         end.
  discriminate.
Qed.

Lemma field_lookup (d : gmap string json) k v : d !! k = Some v -> field d k = v.
Proof. unfold field. now intros ->. Qed.

Lemma business_rule_run (d : gmap string json) log :
  valid d = true ->
  business_rule (Scaled := Scaled) type_error_details (JObj d) log
  = (if closed_or_empty d then Return shortcut_response else Val tt, log).
Proof.
  intros H. destruct (valid_fields d H) as (v1&v2&v3&v4&v5&v6&v7&v8&E1&E2&E3&E4&E5&E6&E7&E8).
  unfold business_rule, closed_or_empty, int_of.
  rewrite (field_lookup _ _ _ E5), (field_lookup _ _ _ E4).
  erewrite !bind_getitem by eassumption.
  unfold return_if. destruct (_ || _); reflexivity.
Qed.

Lemma setitem_dow (dow : Z) log :
  (2 <=? dow) && (dow <=? 7) = true ->
  setitem (S := Scaled) (replicate 6 (JInt 0)) (dow - 2) (JInt 1) log
  = (Val (<[Z.to_nat (dow - 2) := JInt 1]> (replicate 6 (JInt 0))), log).
Proof.
  intros [?%Z.leb_le ?%Z.leb_le]%andb_prop. unfold setitem.
  replace ((0 <=? dow - 2) && (dow - 2 <? Z.of_nat (length (replicate 6 (JInt 0)))))
    with true; [reflexivity|].
  symmetry. apply andb_true_intro. split; [apply Z.leb_le; lia|].
  apply Z.ltb_lt. cbn. lia.
Qed.

Lemma encoding_run (d : gmap string json) log :
  valid d = true ->
  encoding (Scaled := Scaled) type_error_details (JObj d) log
  = (match Datetime.strptime_ordinal (str_of d "date") with
     | None => Return date_format_response
     | Some ord => Val (feature_vector d ord)
     end, log).
Proof.
  intros H. destruct (valid_fields d H) as (v1&v2&v3&v4&v5&v6&v7&v8&E1&E2&E3&E4&E5&E6&E7&E8).
  unfold encoding, feature_vector, dow_onehot, str_of, int_of.
  rewrite (field_lookup _ _ _ E2), (field_lookup _ _ _ E3), (field_lookup _ _ _ E4),
    (field_lookup _ _ _ E5), (field_lookup _ _ _ E6), (field_lookup _ _ _ E7),
    (field_lookup _ _ _ E8).
  erewrite bind_getitem by eassumption.
  destruct (Datetime.strptime_ordinal _) as [ord|]; [|reflexivity].
  erewrite bind_getitem by eassumption.
  unfold bind at 1.
  destruct ((2 <=? Py.int_value v2) && (Py.int_value v2 <=? 7)) eqn:Hdow.
  - rewrite setitem_dow by exact Hdow.
    erewrite !bind_getitem by eassumption. reflexivity.
  - cbn [ret]. erewrite !bind_getitem by eassumption. reflexivity.
Qed.

Lemma prediction_run (d : gmap string json) v :
  valid d = true ->
  match prediction scaler_transform model_predict round2 type_error_details (JObj d) v [] with
  | (Val r, log) => (r, log)
  | (Return r, log) => (r, log)
  | (Raise e, log) => (internal_error e, log)
  end = model_path d v.
Proof.
  intros H. destruct (valid_fields d H) as (v1&v2&v3&v4&v5&v6&v7&v8&E1&E2&E3&E4&E5&E6&E7&E8).
  unfold prediction, model_path, int_of. rewrite (field_lookup _ _ _ E4).
  unfold bind at 1. unfold transform.
  destruct (scaler_transform [v]) as [e|x]; [reflexivity|].
  unfold bind at 1. unfold predict_first.
  destruct (model_predict x) as [e|y]; [reflexivity|].
  erewrite bind_getitem by eassumption.
  destruct (Py.int_value v4 <? 200); reflexivity.
Qed.

(** The handler on a valid mapping, path by path. *)
Lemma predict_valid (d : gmap string json) :
  valid d = true ->
  predict' (JObj d)
  = if closed_or_empty d then (shortcut_response, [])
    else match Datetime.strptime_ordinal (str_of d "date") with
         | None => (date_format_response, [])
         | Some ord => model_path d (feature_vector d ord)
         end.
Proof.
  intros H. unfold predict, predict_body.
  unfold bind at 1. rewrite validation_valid by exact H.
  unfold bind at 1. rewrite business_rule_run by exact H.
  destruct (closed_or_empty d); [reflexivity|].
  unfold bind at 1. rewrite encoding_run by exact H.
  destruct (Datetime.strptime_ordinal _) as [ord|]; [|reflexivity].
  apply prediction_run, H.
Qed.

(** The handler on a mapping the validator rejects. *)
Lemma predict_invalid (d : gmap string json) :
  valid d = false ->
  exists r, predict' (JObj d) = (r, [])
            /\ status r = 400
            /\ body r !! "error" <> body date_format_response !! "error".
Proof.
  intros H. destruct (validation_invalid d [] H) as (r & Hr & Hs & Hb).
  exists r. split; [|done]. unfold predict, predict_body.
  unfold bind at 1. now rewrite Hr.
Qed.

(** Every call to the scaler is made on a valid, open, dated request, and
    with the one row built from it. *)
Lemma transform_calls (d : gmap string json) batch :
  CallTransform batch ∈ snd (predict' (JObj d)) ->
  valid d = true /\ closed_or_empty d = false
  /\ exists ord, Datetime.strptime_ordinal (str_of d "date") = Some ord
                 /\ batch = [feature_vector d ord].
Proof.
  destruct (valid d) eqn:Hv.
  - rewrite predict_valid by exact Hv.
    destruct (closed_or_empty d); [intros []%elem_of_nil|].
    destruct (Datetime.strptime_ordinal _) as [ord|]; [|intros []%elem_of_nil].
    intros Hin. split; [done|]. split; [done|]. exists ord. split; [done|].
    unfold model_path in Hin.
    destruct (scaler_transform _) as [e|x]; [|destruct (model_predict x) as [e|y]];
      cbn [snd] in Hin;
      repeat (apply elem_of_cons in Hin as [Hin|Hin]; [by inversion Hin|]);
      by apply elem_of_nil in Hin.
  - destruct (predict_invalid d Hv) as (r & -> & _). intros []%elem_of_nil.
Qed.

(** On a valid, open, dated request the scaler is called first, with the
    one row built from it. *)
Lemma transform_called (d : gmap string json) ord :
  valid d = true -> closed_or_empty d = false ->
  Datetime.strptime_ordinal (str_of d "date") = Some ord ->
  exists rest, snd (predict' (JObj d)) = CallTransform [feature_vector d ord] :: rest.
Proof.
  intros Hv Hc Ho. rewrite predict_valid, Hc, Ho by exact Hv. unfold model_path.
  destruct (scaler_transform _) as [e|x]; [|destruct (model_predict x) as [e|y]];
    eexists; reflexivity.
Qed.

End Run.

Lemma dow_onehot_set (z : Z) :
  2 <= z <= 7 ->
  length (dow_onehot z) = 6%nat /\ ones (dow_onehot z) = 1%nat
  /\ forall i, dow_onehot z !! i = Some (JInt 1) <-> Z.of_nat i = z - 2.
Proof.
  intros Hz.
  assert (z = 2 \/ z = 3 \/ z = 4 \/ z = 5 \/ z = 6 \/ z = 7) as Hcases by lia.
  destruct Hcases as [->|[->|[->|[->|[->| ->]]]]];
    (split; [reflexivity|]; split; [reflexivity|]);
    intros i; do 7 (try destruct i as [|i]); cbn; split; intros E;
    try discriminate E; try lia; try reflexivity.
Qed.

Lemma dow_onehot_clear (z : Z) : z = 1 -> dow_onehot z = replicate 6 (JInt 0).
Proof. now intros ->. Qed.

Lemma state_map_get_cases (s : string) :
  state_map_get s = [JInt 0; JInt 0; JInt 0] \/ state_map_get s = [JInt 1; JInt 0; JInt 0]
  \/ state_map_get s = [JInt 0; JInt 1; JInt 0] \/ state_map_get s = [JInt 0; JInt 0; JInt 1].
Proof.
  unfold state_map_get, state_map.
  destruct (decide (s = "0")) as [->|H0]; [by left|].
  destruct (decide (s = "a")) as [->|Ha]; [by right; left|].
  destruct (decide (s = "b")) as [->|Hb]; [by right; right; left|].
  destruct (decide (s = "c")) as [->|Hc]; [by right; right; right|].
  left. rewrite !lookup_insert_ne by done. by rewrite lookup_singleton_ne.
Qed.

Lemma state_map_get_length (s : string) : length (state_map_get s) = 3%nat.
Proof. destruct (state_map_get_cases s) as [->|[->|[->| ->]]]; reflexivity. Qed.

Lemma dow_onehot_length (z : Z) : length (dow_onehot z) = 6%nat.
Proof. unfold dow_onehot. case_match; [rewrite length_insert|]; reflexivity. Qed.

Lemma feature_vector_parts (d : gmap string json) ord :
  take 3 (drop 5 (feature_vector d ord)) = state_map_get (str_of d "state_holiday")
  /\ drop 8 (feature_vector d ord) = dow_onehot (int_of d "day_of_week").
Proof.
  unfold feature_vector. cbn [app drop].
  pose proof (state_map_get_length (str_of d "state_holiday")) as Hl.
  destruct (state_map_get _) as [|a [|b [|c [|? ?]]]]; try discriminate Hl.
  split; reflexivity.
Qed.

(** ** Dates *)

Example ordinal_20150615 : Datetime.strptime_ordinal "15/06/2015" = Some 735764.
Proof. reflexivity. Qed.

Example ordinal_first_day : Datetime.strptime_ordinal "01/01/0001" = Some 1.
Proof. reflexivity. Qed.

Example ordinal_short_fields : Datetime.strptime_ordinal "1/2/2016" = Some 735995.
Proof. reflexivity. Qed.

Example ordinal_blank_padded_day : Datetime.strptime_ordinal " 1/02/2016" = Some 735995.
Proof. reflexivity. Qed.

Example ordinal_leap_day : Datetime.strptime_ordinal "29/02/2016" = Some 736023.
Proof. reflexivity. Qed.

Example ordinal_no_leap_day : Datetime.strptime_ordinal "29/02/2015" = None.
Proof. reflexivity. Qed.

Example ordinal_unconverted_data : Datetime.strptime_ordinal "15/06/20155" = None.
Proof. reflexivity. Qed.

Example ordinal_year_zero : Datetime.strptime_ordinal "01/01/0000" = None.
Proof. reflexivity. Qed.

Example ordinal_2015_after_2014 :
  Datetime.strptime_ordinal "01/01/2014" = Some 735234
  /\ Datetime.strptime_ordinal "01/01/2015" = Some 735599.
Proof. split; reflexivity. Qed.

(** The ordinal of a date that parses is positive. *)
Lemma strptime_ordinal_positive (s : string) (ord : Z) :
  Datetime.strptime_ordinal s = Some ord -> 1 <= ord.
Proof.
  unfold Datetime.strptime_ordinal.
  destruct (Datetime.re_match _ _) as [[[|d [|m [|Y [|? ?]]]] [|? ?]]|]; try discriminate.
  unfold Datetime._ymd2ord.
  destruct (negb _) eqn:Hy; [discriminate|].
  destruct (negb ((1 <=? Datetime.int_of_text m) && _)) eqn:Hm; [discriminate|].
  destruct (negb ((1 <=? Datetime.int_of_text d) && _)) eqn:Hd; [discriminate|].
  intros [= <-].
  apply negb_false_iff, andb_prop in Hy as [Hy1%Z.leb_le Hy2%Z.leb_le].
  apply negb_false_iff, andb_prop in Hm as [Hm1%Z.leb_le Hm2%Z.leb_le].
  apply negb_false_iff, andb_prop in Hd as [Hd1%Z.leb_le _].
  unfold Datetime._days_before_year, Datetime._days_before_month.
  set (y := Datetime.int_of_text Y - 1) in *.
  assert (0 <= y) by (unfold y; lia).
  assert (y / 100 <= y / 4) by (apply Z.div_le_compat_l; lia).
  assert (0 <= y / 400) by (apply Z.div_pos; lia).
  assert (0 <= nth (Z.to_nat (Datetime.int_of_text m)) Datetime._DAYS_BEFORE_MONTH 0).
  { assert (exists n, Z.to_nat (Datetime.int_of_text m) = S n /\ (n < 12)%nat) as (n & -> & Hn)
        by (exists (Z.to_nat (Datetime.int_of_text m) - 1)%nat; lia).
    do 12 (destruct n as [|n]; [cbn; lia|]). lia. }
  assert (0 <= Z.b2z ((2 <? Datetime.int_of_text m) && Datetime._is_leap (Datetime.int_of_text Y)))
    by (destruct (_ && _); cbn; lia).
  nia.
Qed.

(** ** Properties of the handler *)

Section Properties.

Context {Scaled : Type}.
Variable scaler_transform : list (list json) -> string + Scaled.
Variable model_predict : Scaled -> string + spec_float.
Variable round2 : spec_float -> spec_float.
Variable type_error_details : json -> string.

#[local] Abbreviation predict' :=
  (predict scaler_transform model_predict round2 type_error_details).

Lemma valid_numeric (d : gmap string json) ord :
  valid d = true -> Forall (fun x => Py.isinstance_int x = true) (feature_vector d ord).
Proof.
  intros H. unfold valid in H.
  repeat (apply andb_prop in H; destruct H as [H ?]).
  repeat match goal with
         | H : int_field _ _ _ = true |- _ =>
             apply int_field_inv in H; destruct H as (?&?&?&_)
         end.
  unfold feature_vector.
  repeat match goal with
         | E : d !! _ = Some _ |- _ => rewrite (field_lookup _ _ _ E); clear E
         end.
  repeat (apply Forall_cons; split; [done|]).
  apply Forall_app. split.
  - destruct (state_map_get_cases (str_of d "state_holiday")) as [->|[->|[->| ->]]];
      repeat constructor.
  - unfold dow_onehot. case_match.
    + apply Forall_insert; [|done]. repeat constructor.
    + repeat constructor.
Qed.

(** C1, as amended: on every valid request that does not take the shortcut
    and whose date parses, the handler gives the scaler one row of exactly
    14 components (5 scalars, 3 holiday slots, 6 day slots), each of them
    an [int], and it gives the scaler nothing else. *)
Theorem feature_vector_has_14_components (d : gmap string json) (ord : Z) :
  valid d = true ->
  closed_or_empty d = false ->
  Datetime.strptime_ordinal (str_of d "date") = Some ord ->
  exists v rest,
    snd (predict' (JObj d)) = CallTransform [v] :: rest
    /\ length v = 14%nat
    /\ Forall (fun x => Py.isinstance_int x = true) v
    /\ forall batch, CallTransform batch ∈ snd (predict' (JObj d)) -> batch = [v].
Proof.
  intros Hv Hc Ho.
  destruct (transform_called scaler_transform model_predict round2 type_error_details
              d ord Hv Hc Ho) as [rest Hrest].
  exists (feature_vector d ord), rest. split; [exact Hrest|]. split.
  - unfold feature_vector. rewrite !length_app, state_map_get_length, dow_onehot_length.
    reflexivity.
  - split; [by apply valid_numeric|].
    intros batch Hin. apply transform_calls in Hin as (_ & _ & ord' & Ho' & ->).
    congruence.
Qed.

(** C2: a valid request with [open == 0] or [nb_customers_on_day == 0] is
    answered with status 200, prediction [0.0] and a message, whatever its
    other fields hold, and no call reaches the scaler or the model. The
    rule comes after validation: a request the validator rejects is
    answered 400 even when the store is closed. *)
Theorem shortcut_predicts_zero (d : gmap string json) :
  valid d = true ->
  int_of d "open" = 0 \/ int_of d "nb_customers_on_day" = 0 ->
  predict' (JObj d) = (shortcut_response, [])
  /\ status shortcut_response = 200
  /\ body shortcut_response !! "prediction" = Some (JFloat (S754_zero false))
  /\ is_Some (body shortcut_response !! "message")
  /\ forall d' : gmap string json,
      valid d' = false -> d' !! "open" = Some (JInt 0) ->
      exists r, predict' (JObj d') = (r, []) /\ status r = 400.
Proof.
  intros Hv Hc. split.
  - rewrite predict_valid by exact Hv.
    replace (closed_or_empty d) with true; [reflexivity|].
    symmetry. unfold closed_or_empty. apply orb_true_iff.
    destruct Hc as [->| ->]; [left|right]; reflexivity.
  - split; [reflexivity|]. split; [reflexivity|]. split; [by eexists|].
    intros d' Hv' _.
    destruct (predict_invalid scaler_transform model_predict round2 type_error_details
                d' Hv') as (r & Hr & Hs & _).
    eauto.
Qed.

(** C3, as amended: a valid request that does not take the shortcut and is
    answered by the model (status 200) carries a warning exactly when
    [nb_customers_on_day < 200]; and no valid request with
    [nb_customers_on_day >= 200] carries one. *)
Theorem warning_below_200 (d : gmap string json) :
  valid d = true ->
  (200 <= int_of d "nb_customers_on_day" ->
   has_field (fst (predict' (JObj d))) "warning" = false)
  /\ (closed_or_empty d = false -> status (fst (predict' (JObj d))) = 200 ->
      has_field (fst (predict' (JObj d))) "warning"
      = (int_of d "nb_customers_on_day" <? 200)).
Proof.
  intros Hv. rewrite predict_valid by exact Hv. split.
  - intros Hn. destruct (closed_or_empty d); [reflexivity|].
    destruct (Datetime.strptime_ordinal _) as [ord|]; [|reflexivity].
    unfold model_path.
    destruct (scaler_transform _) as [e|x]; [reflexivity|].
    destruct (model_predict x) as [e|y]; [reflexivity|].
    replace (int_of d "nb_customers_on_day" <? 200) with false
      by (symmetry; apply Z.ltb_ge; lia).
    reflexivity.
  - intros -> Hs.
    destruct (Datetime.strptime_ordinal _) as [ord|]; [|discriminate Hs].
    unfold model_path in *.
    destruct (scaler_transform _) as [e|x]; [discriminate Hs|].
    destruct (model_predict x) as [e|y]; [discriminate Hs|].
    cbn [fst]. destruct (int_of d "nb_customers_on_day" <? 200); reflexivity.
Qed.

(** C4: when a mapping lacks one or more of the 8 required keys, the answer
    is a 400 whose [missing] list holds every absent required key (and
    nothing else), and no artifact is called. *)
Theorem missing_fields_all_listed (d : gmap string json) (k : string) :
  k ∈ required_fields -> d !! k = None ->
  exists ms,
    predict' (JObj d)
    = (Resp 400 {[ "error" := JStr "Missing required fields";
                   "missing" := JArr (JStr <$> ms) ]}, [])
    /\ k ∈ ms
    /\ forall k', k' ∈ ms <-> k' ∈ required_fields /\ d !! k' = None.
Proof.
  intros Hk Hd. exists (missing d).
  assert (forall k', k' ∈ missing d <-> k' ∈ required_fields /\ d !! k' = None) as Hspec.
  { intros k'. unfold missing. rewrite list_elem_of_filter. tauto. }
  assert (k ∈ missing d) as Hin by (by apply Hspec).
  split; [|split; [exact Hin|exact Hspec]].
  clear Hspec.
  unfold predict, predict_body, validation.
  unfold bind at 1. rewrite bind_return_if. unfold bind at 1.
  rewrite missing_fields_run. fold (missing d). rewrite bind_return_if.
  destruct (missing d) as [|k0 ks]; [|reflexivity].
  by apply elem_of_nil in Hin.
Qed.

(** C5: in every vector handed to the scaler for a valid request, the six
    day slots (positions 8 to 13) hold exactly one 1, at slot
    [day_of_week - 2], when [day_of_week] is in [2,7], and are all 0 when
    [day_of_week = 1]; the three holiday slots (positions 5 to 7) hold
    exactly one 1 when [state_holiday] is "a", "b" or "c" (first, second
    and third slot), and are all 0 when it is "0". *)
Theorem one_hot_invariants (d : gmap string json) (v : list json) :
  valid d = true ->
  CallTransform [v] ∈ snd (predict' (JObj d)) ->
  (2 <= int_of d "day_of_week" <= 7 ->
   length (drop 8 v) = 6%nat /\ ones (drop 8 v) = 1%nat
   /\ forall i, drop 8 v !! i = Some (JInt 1)
                <-> Z.of_nat i = int_of d "day_of_week" - 2)
  /\ (int_of d "day_of_week" = 1 -> drop 8 v = replicate 6 (JInt 0))
  /\ (str_of d "state_holiday" = "a" -> take 3 (drop 5 v) = [JInt 1; JInt 0; JInt 0])
  /\ (str_of d "state_holiday" = "b" -> take 3 (drop 5 v) = [JInt 0; JInt 1; JInt 0])
  /\ (str_of d "state_holiday" = "c" -> take 3 (drop 5 v) = [JInt 0; JInt 0; JInt 1])
  /\ (str_of d "state_holiday" ∈ ["a"; "b"; "c"] -> ones (take 3 (drop 5 v)) = 1%nat)
  /\ (str_of d "state_holiday" = "0" -> take 3 (drop 5 v) = replicate 3 (JInt 0)).
Proof.
  intros _ Hin. apply transform_calls in Hin as (_ & _ & ord & _ & Hb).
  injection Hb as ->.
  destruct (feature_vector_parts d ord) as [-> ->].
  split; [apply dow_onehot_set|]. split; [apply dow_onehot_clear|].
  repeat split; try (intros ->; reflexivity).
  intros Hs. repeat (apply elem_of_cons in Hs as [->|Hs]; [reflexivity|]).
  by apply elem_of_nil in Hs.
Qed.

(** C6: on a valid request that does not take the shortcut and whose date
    has the ordinal [ord], the row given to the scaler is [ord], then
    [nb_customers_on_day], [promotion], [school_holiday], [open], then the
    3 holiday slots, then the 6 day slots; the example request yields
    [735764, 500, 1, 0, 1, 0,0,0, 0,1,0,0,0,0], 735764 being the ordinal
    of 15/06/2015. *)
Theorem feature_order (d : gmap string json) (ord : Z) :
  valid d = true ->
  closed_or_empty d = false ->
  Datetime.strptime_ordinal (str_of d "date") = Some ord ->
  (exists rest,
      snd (predict' (JObj d))
      = CallTransform
          [ [JInt ord; field d "nb_customers_on_day"; field d "promotion";
             field d "school_holiday"; field d "open"]
              ++ state_map_get (str_of d "state_holiday")
              ++ dow_onehot (int_of d "day_of_week") ] :: rest)
  /\ length (state_map_get (str_of d "state_holiday")) = 3%nat
  /\ length (dow_onehot (int_of d "day_of_week")) = 6%nat
  /\ Datetime.strptime_ordinal "15/06/2015" = Some 735764
  /\ exists rest,
      snd (predict' (JObj example_request))
      = CallTransform
          [ [JInt 735764; JInt 500; JInt 1; JInt 0; JInt 1;
             JInt 0; JInt 0; JInt 0;
             JInt 0; JInt 1; JInt 0; JInt 0; JInt 0; JInt 0] ] :: rest.
Proof.
  intros Hv Hc Ho. split.
  { apply (transform_called _ _ _ _ d ord Hv Hc Ho). }
  split; [apply state_map_get_length|]. split; [apply dow_onehot_length|].
  split; [reflexivity|].
  apply (transform_called _ _ _ _ example_request 735764); reflexivity.
Qed.

Lemma predict_with_model (data : json) :
  predict_with scaler_transform model_predict round2 type_error_details
    Datetime.strptime_ordinal data
  = predict' data.
Proof. reflexivity. Qed.

Lemma encoding_with_unparsed (strptime : string -> option Z) (d : gmap string json) log :
  valid d = true ->
  strptime (str_of d "date") = None ->
  encoding_with (Scaled := Scaled) type_error_details strptime (JObj d) log
  = (Return date_format_response, log).
Proof.
  intros Hv Ho.
  destruct (valid_fields d Hv) as (v1&v2&v3&v4&v5&v6&v7&v8&E1&E2&E3&E4&E5&E6&E7&E8).
  unfold str_of in Ho. rewrite (field_lookup _ _ _ E3) in Ho.
  unfold encoding_with. erewrite bind_getitem by eassumption.
  rewrite Ho. reflexivity.
Qed.

Lemma encoding_with_parsed (strptime : string -> option Z) (d : gmap string json)
    (ord : Z) log :
  valid d = true ->
  strptime (str_of d "date") = Some ord ->
  encoding_with (Scaled := Scaled) type_error_details strptime (JObj d) log
  = (Val (feature_vector d ord), log).
Proof.
  intros Hv Ho.
  destruct (valid_fields d Hv) as (v1&v2&v3&v4&v5&v6&v7&v8&E1&E2&E3&E4&E5&E6&E7&E8).
  unfold str_of in Ho. rewrite (field_lookup _ _ _ E3) in Ho.
  unfold encoding_with, feature_vector, dow_onehot, str_of, int_of.
  rewrite (field_lookup _ _ _ E2), (field_lookup _ _ _ E4), (field_lookup _ _ _ E5),
    (field_lookup _ _ _ E6), (field_lookup _ _ _ E7), (field_lookup _ _ _ E8).
  erewrite bind_getitem by eassumption. rewrite Ho.
  erewrite bind_getitem by eassumption.
  unfold bind at 1.
  destruct ((2 <=? Py.int_value v2) && (Py.int_value v2 <=? 7)) eqn:Hdow.
  - rewrite setitem_dow by exact Hdow.
    erewrite !bind_getitem by eassumption. reflexivity.
  - cbn [ret]. erewrite !bind_getitem by eassumption. reflexivity.
Qed.

(** The handler around any [strptime], on a valid mapping: a date the
    library parses goes on to the artifacts, whatever digits it is written
    with. *)
Lemma predict_with_valid (strptime : string -> option Z) (d : gmap string json) :
  valid d = true ->
  predict_with scaler_transform model_predict round2 type_error_details strptime (JObj d)
  = if closed_or_empty d then (shortcut_response, [])
    else match strptime (str_of d "date") with
         | None => (date_format_response, [])
         | Some ord =>
             model_path scaler_transform model_predict round2 d (feature_vector d ord)
         end.
Proof.
  intros Hv. unfold predict_with, predict_body_with.
  unfold bind at 1. rewrite validation_valid by exact Hv.
  unfold bind at 1. rewrite business_rule_run by exact Hv.
  destruct (closed_or_empty d); [reflexivity|].
  unfold bind at 1.
  destruct (strptime (str_of d "date")) as [ord|] eqn:Ho.
  - rewrite (encoding_with_parsed strptime d ord) by assumption.
    apply prediction_run, Hv.
  - by rewrite encoding_with_unparsed.
Qed.

(** C7: whatever the library's [strptime] answers on other text, as long as
    it is [Datetime.strptime_ordinal] on ASCII text: a valid request that
    does not take the shortcut and whose date does not parse as DD/MM/YYYY
    is answered with the 400 of the encoder, which is not the answer of the
    type check on [date], and no artifact is called; "2015-01-01" and
    "32/01/2015" do not parse. The validator never gives that answer: the
    format is looked at after validation. *)
Theorem unparseable_date_rejected
    (strptime : string -> option Z) (d : gmap string json) :
  (forall s, ascii_only s = true -> strptime s = Datetime.strptime_ordinal s) ->
  valid d = true ->
  closed_or_empty d = false ->
  strptime (str_of d "date") = None ->
  predict_with scaler_transform model_predict round2 type_error_details strptime (JObj d)
  = (date_format_response, [])
  /\ status date_format_response = 400
  /\ date_format_response <> bad_request "date must be a string in format DD/MM/YYYY"
  /\ strptime "2015-01-01" = None
  /\ strptime "32/01/2015" = None
  /\ forall d' : gmap string json,
      valid d' = false ->
      fst (predict_with scaler_transform model_predict round2 type_error_details
             strptime (JObj d'))
      <> date_format_response.
Proof.
  intros Hascii Hv Hc Ho. split.
  { unfold predict_with, predict_body_with.
    unfold bind at 1. rewrite validation_valid by exact Hv.
    unfold bind at 1. rewrite business_rule_run, Hc by exact Hv.
    unfold bind at 1. by rewrite encoding_with_unparsed. }
  split; [reflexivity|]. split.
  { intros E. apply (f_equal (fun r => body r !! "error")) in E.
    vm_compute in E. discriminate E. }
  split; [by rewrite Hascii|]. split; [by rewrite Hascii|].
  intros d' Hv' E.
  destruct (validation_invalid (Scaled := Scaled) type_error_details d' [] Hv')
    as (r & Hr & _ & Hb).
  unfold predict_with, predict_body_with in E. unfold bind at 1 in E.
  rewrite Hr in E. cbn [fst] in E. subst r. by apply Hb.
Qed.

(** C8: the vector is a function of the eight required fields alone. Two
    mappings that agree on them (two equal mappings among them) get the
    same vector, under any two sets of artifacts. *)
Theorem encoding_deterministic
    {Scaled2 : Type}
    (scaler_transform2 : list (list json) -> string + Scaled2)
    (model_predict2 : Scaled2 -> string + spec_float)
    (round2' : spec_float -> spec_float)
    (type_error_details2 : json -> string)
    (d1 d2 : gmap string json) (v1 v2 : list json) :
  (forall k, k ∈ required_fields -> d1 !! k = d2 !! k) ->
  CallTransform [v1] ∈ snd (predict' (JObj d1)) ->
  CallTransform [v2]
    ∈ snd (predict scaler_transform2 model_predict2 round2' type_error_details2 (JObj d2)) ->
  v1 = v2.
Proof.
  intros Heq H1 H2.
  apply transform_calls in H1 as (_ & _ & o1 & Ho1 & E1).
  apply transform_calls in H2 as (_ & _ & o2 & Ho2 & E2).
  injection E1 as ->. injection E2 as ->.
  assert (forall k, k ∈ required_fields -> field d1 k = field d2 k) as Hf
      by (intros k Hk; unfold field; by rewrite (Heq k Hk)).
  unfold str_of in Ho1, Ho2. rewrite Hf in Ho1 by (unfold required_fields; set_solver).
  assert (o1 = o2) as -> by congruence.
  unfold feature_vector, str_of, int_of.
  rewrite !Hf by (unfold required_fields; set_solver). reflexivity.
Qed.

(** C9: a valid request with [open == 0] or [nb_customers_on_day == 0]
    whose date does not parse (such as "not-a-date") is still answered by
    the shortcut, with prediction 0.0 and status 200, and not with the
    date-format answer. *)
Theorem shortcut_before_date_parsing (d : gmap string json) :
  valid d = true ->
  int_of d "open" = 0 \/ int_of d "nb_customers_on_day" = 0 ->
  Datetime.strptime_ordinal (str_of d "date") = None ->
  predict' (JObj d) = (shortcut_response, [])
  /\ body (fst (predict' (JObj d))) !! "prediction" = Some (JFloat (S754_zero false))
  /\ fst (predict' (JObj d)) <> date_format_response
  /\ Datetime.strptime_ordinal "not-a-date" = None.
Proof.
  intros Hv Hc _.
  assert (predict' (JObj d) = (shortcut_response, [])) as ->.
  { rewrite predict_valid by exact Hv.
    replace (closed_or_empty d) with true; [reflexivity|].
    symmetry. unfold closed_or_empty. apply orb_true_iff.
    destruct Hc as [->| ->]; [left|right]; reflexivity. }
  split; [reflexivity|]. split; [reflexivity|]. split; [|reflexivity].
  intros E. apply (f_equal status) in E. discriminate E.
Qed.

End Properties.

(** ** JSON booleans in integer fields *)

Section Booleans.

Context {Scaled : Type}.
Variable scaler_transform : list (list json) -> string + Scaled.
Variable model_predict : Scaled -> string + spec_float.
Variable round2 : spec_float -> spec_float.
Variable type_error_details : json -> string.

#[local] Abbreviation predict' :=
  (predict scaler_transform model_predict round2 type_error_details).

Variable d : gmap string json.
Variable k : string.
Variable b : bool.

#[local] Abbreviation d_bool := (<[k := JBool b]> d).
#[local] Abbreviation d_int := (<[k := JInt (Z.b2z b)]> d).

Lemma int_field_bool k' ok : int_field d_bool k' ok = int_field d_int k' ok.
Proof.
  unfold int_field. destruct (decide (k = k')) as [->|Hne].
  - by rewrite !lookup_insert_eq.
  - by rewrite !lookup_insert_ne.
Qed.

Lemma str_field_bool k' ok : str_field d_bool k' ok = str_field d_int k' ok.
Proof.
  unfold str_field. destruct (decide (k = k')) as [->|Hne].
  - by rewrite !lookup_insert_eq.
  - by rewrite !lookup_insert_ne.
Qed.

Lemma valid_bool : valid d_bool = valid d_int.
Proof. unfold valid. by rewrite !int_field_bool, !str_field_bool. Qed.

Lemma int_of_bool k' : int_of d_bool k' = int_of d_int k'.
Proof.
  unfold int_of, field. destruct (decide (k = k')) as [->|Hne].
  - by rewrite !lookup_insert_eq.
  - by rewrite !lookup_insert_ne.
Qed.

Lemma str_of_bool k' : str_of d_bool k' = str_of d_int k'.
Proof.
  unfold str_of, field. destruct (decide (k = k')) as [->|Hne].
  - by rewrite !lookup_insert_eq.
  - by rewrite !lookup_insert_ne.
Qed.

Lemma closed_or_empty_bool : closed_or_empty d_bool = closed_or_empty d_int.
Proof. unfold closed_or_empty. by rewrite !int_of_bool. Qed.

Lemma feature_vector_bool ord :
  same_numbers (feature_vector d_bool ord) (feature_vector d_int ord).
Proof.
  unfold same_numbers, feature_vector. rewrite !fmap_app. cbn [fmap list_fmap].
  fold (int_of d_bool "nb_customers_on_day") (int_of d_int "nb_customers_on_day")
       (int_of d_bool "promotion") (int_of d_int "promotion")
       (int_of d_bool "school_holiday") (int_of d_int "school_holiday")
       (int_of d_bool "open") (int_of d_int "open").
  by rewrite !int_of_bool, !str_of_bool.
Qed.

(** C10: [true] and [false] under a key pass wherever 1 and 0 pass. If
    the mapping with the integer is valid, the mapping with the boolean is
    valid and goes through the validator; the business rule decides the
    same way, so [open = false] takes the shortcut as [open = 0] does; the
    vectors hold the same numbers; and a scaler that looks at the numbers
    only leads to the same response. *)
Theorem booleans_accepted_as_integers :
  valid d_int = true ->
  valid d_bool = true
  /\ validation (Scaled := Scaled) type_error_details (JObj d_bool) [] = (Val tt, [])
  /\ closed_or_empty d_bool = closed_or_empty d_int
  /\ (closed_or_empty d_int = true -> predict' (JObj d_bool) = (shortcut_response, []))
  /\ (forall ord, same_numbers (feature_vector d_bool ord) (feature_vector d_int ord))
  /\ ((forall r1 r2, same_numbers r1 r2 -> scaler_transform [r1] = scaler_transform [r2]) ->
      fst (predict' (JObj d_bool)) = fst (predict' (JObj d_int))).
Proof.
  intros Hv. assert (valid d_bool = true) as Hvb by (by rewrite valid_bool).
  split; [exact Hvb|]. split; [by apply validation_valid|].
  split; [apply closed_or_empty_bool|]. split.
  { intros Hc. rewrite predict_valid by exact Hvb.
    by rewrite closed_or_empty_bool, Hc. }
  split; [apply feature_vector_bool|].
  intros Hscaler. rewrite !predict_valid by assumption.
  rewrite closed_or_empty_bool, str_of_bool.
  destruct (closed_or_empty d_int); [reflexivity|].
  destruct (Datetime.strptime_ordinal _) as [ord|]; [|reflexivity].
  unfold model_path. rewrite int_of_bool.
  rewrite (Hscaler _ _ (feature_vector_bool ord)).
  destruct (scaler_transform _) as [e|x]; [reflexivity|].
  destruct (model_predict x) as [e|y]; [reflexivity|].
  reflexivity.
Qed.

End Booleans.

(** ** The theorems at concrete requests *)

Lemma feature_vector_has_14_components_witness :
  exists v rest,
    snd (predict_fake (JObj example_request)) = CallTransform [v] :: rest
    /\ length v = 14%nat.
Proof.
  destruct (feature_vector_has_14_components fake_transform fake_predict fake_round
              fake_details example_request 735764)
    as (v & rest & Hlog & Hlen & _).
  - vm_compute. reflexivity.
  - vm_compute. reflexivity.
  - vm_compute. reflexivity.
  - exists v, rest. split; assumption.
Defined.

(** The claim of 11 components fails on the example request: its row has 14. *)
Lemma feature_vector_not_11_components :
  valid example_request = true
  /\ closed_or_empty example_request = false
  /\ head (snd (predict_fake (JObj example_request))) = Some (CallTransform [example_vector])
  /\ length example_vector <> 11%nat.
Proof.
  split; [vm_compute; reflexivity|]. split; [vm_compute; reflexivity|].
  split; [vm_compute; reflexivity|]. vm_compute. discriminate.
Qed.

Lemma shortcut_predicts_zero_witness :
  predict_fake (JObj closed_request) = (shortcut_response, []).
Proof.
  apply (shortcut_predicts_zero fake_transform fake_predict fake_round fake_details
           closed_request).
  - vm_compute. reflexivity.
  - left. vm_compute. reflexivity.
Defined.

(** The claim of a warning below 200 customers fails on the closed store:
    valid, 100 customers, answered by the shortcut without a warning. *)
Lemma closed_store_has_no_warning :
  valid closed_request = true
  /\ int_of closed_request "nb_customers_on_day" = 100
  /\ 100 < 200
  /\ fst (predict_fake (JObj closed_request)) = shortcut_response
  /\ has_field (fst (predict_fake (JObj closed_request))) "warning" = false.
Proof.
  split; [vm_compute; reflexivity|]. split; [vm_compute; reflexivity|].
  split; [lia|]. split; vm_compute; reflexivity.
Qed.

Lemma warning_below_200_witness :
  has_field (fst (predict_fake (JObj quiet_request))) "warning" = true
  /\ has_field (fst (predict_fake (JObj example_request))) "warning" = false.
Proof.
  split.
  - destruct (warning_below_200 fake_transform fake_predict fake_round fake_details
                quiet_request) as [_ H].
    + vm_compute. reflexivity.
    + unfold predict_fake. rewrite H; vm_compute; reflexivity.
  - destruct (warning_below_200 fake_transform fake_predict fake_round fake_details
                example_request) as [H _].
    + vm_compute. reflexivity.
    + apply H. vm_compute. discriminate.
Defined.

Lemma missing_fields_all_listed_witness :
  exists ms,
    predict_fake (JObj partial_request)
    = (Resp 400 {[ "error" := JStr "Missing required fields";
                   "missing" := JArr (JStr <$> ms) ]}, [])
    /\ "date" ∈ ms
    /\ forall k', k' ∈ ms <-> k' ∈ required_fields /\ partial_request !! k' = None.
Proof.
  apply (missing_fields_all_listed fake_transform fake_predict fake_round fake_details
           partial_request "date").
  - unfold required_fields. do 2 right. left.
  - vm_compute. reflexivity.
Defined.

Lemma one_hot_invariants_witness :
  ones (drop 8 example_vector) = 1%nat
  /\ take 3 (drop 5 example_vector) = replicate 3 (JInt 0).
Proof.
  destruct (one_hot_invariants fake_transform fake_predict fake_round fake_details
              example_request example_vector) as (Hdow & _ & _ & _ & _ & _ & Hhol).
  - vm_compute. reflexivity.
  - vm_compute. left.
  - split.
    + apply Hdow. vm_compute. split; discriminate.
    + apply Hhol. vm_compute. reflexivity.
Defined.

Lemma feature_order_witness :
  exists rest,
    snd (predict_fake (JObj quiet_request))
    = CallTransform
        [ [JInt 735764; field quiet_request "nb_customers_on_day";
           field quiet_request "promotion"; field quiet_request "school_holiday";
           field quiet_request "open"]
            ++ state_map_get (str_of quiet_request "state_holiday")
            ++ dow_onehot (int_of quiet_request "day_of_week") ] :: rest.
Proof.
  apply (feature_order fake_transform fake_predict fake_round fake_details
           quiet_request 735764).
  - vm_compute. reflexivity.
  - vm_compute. reflexivity.
  - vm_compute. reflexivity.
Defined.

Lemma unparseable_date_rejected_witness :
  predict_with fake_transform fake_predict fake_round fake_details
    Datetime.strptime_ordinal (JObj unparseable_request)
  = (date_format_response, []).
Proof.
  apply (unparseable_date_rejected fake_transform fake_predict fake_round fake_details
           Datetime.strptime_ordinal unparseable_request).
  - intros s _. reflexivity.
  - vm_compute. reflexivity.
  - vm_compute. reflexivity.
  - vm_compute. reflexivity.
Defined.

Lemma encoding_deterministic_witness :
  CallTransform [example_vector] ∈ snd (predict_fake (JObj example_request))
  /\ CallTransform [example_vector] ∈ snd (predict_failing (JObj annotated_request))
  /\ example_vector = example_vector.
Proof.
  assert (CallTransform [example_vector] ∈ snd (predict_fake (JObj example_request))) as H1
      by (vm_compute; left).
  assert (CallTransform [example_vector] ∈ snd (predict_failing (JObj annotated_request))) as H2
      by (vm_compute; left).
  split; [exact H1|]. split; [exact H2|].
  apply (encoding_deterministic fake_transform fake_predict fake_round fake_details
           failing_transform (fun _ => inl "model unavailable") fake_round fake_details
           example_request annotated_request example_vector example_vector).
  - intros k Hk. unfold required_fields in Hk.
    repeat (apply elem_of_cons in Hk as [->|Hk]; [vm_compute; reflexivity|]).
    by apply elem_of_nil in Hk.
  - exact H1.
  - exact H2.
Defined.

Lemma shortcut_before_date_parsing_witness :
  predict_fake (JObj closed_undated_request) = (shortcut_response, []).
Proof.
  apply (shortcut_before_date_parsing fake_transform fake_predict fake_round fake_details
           closed_undated_request).
  - vm_compute. reflexivity.
  - left. vm_compute. reflexivity.
  - vm_compute. reflexivity.
Defined.

Lemma booleans_accepted_as_integers_witness :
  valid (<["open" := JBool true]> example_request) = true
  /\ fst (predict_fake (JObj (<["open" := JBool true]> example_request)))
     = fst (predict_fake (JObj (<["open" := JInt 1]> example_request))).
Proof.
  destruct (booleans_accepted_as_integers fake_transform fake_predict fake_round
              fake_details example_request "open" true)
    as (Hv & _ & _ & _ & _ & Hsame).
  - vm_compute. reflexivity.
  - split; [exact Hv|]. apply Hsame.
    intros r1 r2 Hr. unfold fake_transform. cbn. unfold same_numbers in Hr.
    rewrite Hr. reflexivity.
Defined.

(** ** The handler as a cascade *)

Section Cascade.

Context {Scaled : Type}.
Variable scaler_transform : list (list json) -> string + Scaled.
Variable model_predict : Scaled -> string + spec_float.
Variable round2 : spec_float -> spec_float.
Variable type_error_details : json -> string.

#[local] Abbreviation predict' :=
  (predict scaler_transform model_predict round2 type_error_details).
#[local] Abbreviation object_answer' :=
  (object_answer scaler_transform model_predict round2).

Lemma missing_all_present (d : gmap string json) :
  missing d = [] ->
  exists v1 v2 v3 v4 v5 v6 v7 v8,
    d !! "store_ID" = Some v1 /\ d !! "day_of_week" = Some v2
    /\ d !! "date" = Some v3 /\ d !! "nb_customers_on_day" = Some v4
    /\ d !! "open" = Some v5 /\ d !! "promotion" = Some v6
    /\ d !! "school_holiday" = Some v7 /\ d !! "state_holiday" = Some v8.
Proof.
  intros Hm. pose proof (proj1 (missing_nil_iff d) Hm) as Hall.
  assert (forall k, In k required_fields -> is_Some (d !! k)) as Hall'
      by (intros k Hk; apply Hall, list_elem_of_In, Hk).
  unfold required_fields in Hall'. cbn [In] in Hall'.
  destruct (Hall' "store_ID") as [v1 E1]; [tauto|].
  destruct (Hall' "day_of_week") as [v2 E2]; [tauto|].
  destruct (Hall' "date") as [v3 E3]; [tauto|].
  destruct (Hall' "nb_customers_on_day") as [v4 E4]; [tauto|].
  destruct (Hall' "open") as [v5 E5]; [tauto|].
  destruct (Hall' "promotion") as [v6 E6]; [tauto|].
  destruct (Hall' "school_holiday") as [v7 E7]; [tauto|].
  destruct (Hall' "state_holiday") as [v8 E8]; [tauto|].
  exists v1, v2, v3, v4, v5, v6, v7, v8. tauto.
Qed.

Lemma validation_first_violation (d : gmap string json) log :
  missing d = [] ->
  validation (Scaled := Scaled) type_error_details (JObj d) log
  = (match first_violation d with
     | Some msg => Return (bad_request msg)
     | None => Val tt
     end, log).
Proof.
  intros Hm.
  destruct (missing_all_present d Hm)
    as (v1&v2&v3&v4&v5&v6&v7&v8&E1&E2&E3&E4&E5&E6&E7&E8).
  unfold first_violation, field_rules. cbn [find fst snd].
  rewrite (field_lookup _ _ _ E1), (field_lookup _ _ _ E2), (field_lookup _ _ _ E3),
    (field_lookup _ _ _ E4), (field_lookup _ _ _ E5), (field_lookup _ _ _ E6),
    (field_lookup _ _ _ E7), (field_lookup _ _ _ E8).
  unfold validation. rewrite bind_return_if. unfold bind at 1.
  rewrite missing_fields_run. fold (missing d). rewrite Hm, bind_return_if.
  repeat (erewrite bind_getitem by eassumption; rewrite ?bind_return_if).
  rewrite !in_ints_01, !(Z.leb_antisym _ 0). unfold Py.in_strs, return_if.
  destruct (Py.isinstance_int v1); [|reflexivity].
  destruct (Py.int_value v1 <? 0); [reflexivity|].
  destruct (Py.isinstance_int v2); [|reflexivity].
  destruct ((1 <=? Py.int_value v2) && (Py.int_value v2 <=? 7)); [|reflexivity].
  destruct (Py.isinstance_str v3); [|reflexivity].
  destruct (Py.isinstance_int v4); [|reflexivity].
  destruct (Py.int_value v4 <? 0); [reflexivity|].
  destruct (Py.isinstance_int v5); [|reflexivity].
  destruct (zero_or_one (Py.int_value v5)); [|reflexivity].
  destruct (Py.isinstance_int v6); [|reflexivity].
  destruct (zero_or_one (Py.int_value v6)); [|reflexivity].
  destruct (Py.isinstance_int v7); [|reflexivity].
  destruct (zero_or_one (Py.int_value v7)); [|reflexivity].
  destruct (Py.isinstance_str v8); [|reflexivity].
  destruct (existsb _ _); reflexivity.
Qed.

Lemma valid_iff_cascade (d : gmap string json) :
  valid d = true <-> missing d = [] /\ first_violation d = None.
Proof.
  split.
  - intros Hv. pose proof (valid_missing d Hv) as Hm. split; [exact Hm|].
    pose proof (validation_first_violation d [] Hm) as H.
    rewrite (validation_valid (Scaled := Scaled) type_error_details d [] Hv) in H.
    destruct (first_violation d); [discriminate H|reflexivity].
  - intros [Hm Hf]. destruct (valid d) eqn:Hv; [reflexivity|].
    destruct (validation_invalid (Scaled := Scaled) type_error_details d [] Hv) as (r & Hr & _).
    rewrite (validation_first_violation d [] Hm), Hf in Hr. discriminate Hr.
Qed.

Lemma predict_missing (d : gmap string json) :
  missing d <> [] -> predict' (JObj d) = (missing_response (missing d), []).
Proof.
  intros Hm. unfold predict, predict_body, validation.
  unfold bind at 1. rewrite bind_return_if. unfold bind at 1.
  rewrite missing_fields_run. fold (missing d). rewrite bind_return_if.
  destruct (missing d) as [|k0 ks]; [done|reflexivity].
Qed.

(** The handler on a mapping is the cascade. *)
Lemma predict_object (d : gmap string json) : predict' (JObj d) = object_answer' d.
Proof.
  unfold object_answer. destruct (missing d) as [|k0 ks] eqn:Hm.
  - destruct (first_violation d) as [msg|] eqn:Hf.
    + unfold predict, predict_body. unfold bind at 1.
      by rewrite (validation_first_violation d [] Hm), Hf.
    + apply predict_valid, valid_iff_cascade. by split.
  - rewrite <- Hm. apply predict_missing. by rewrite Hm.
Qed.

(** X1: the validator lets a mapping through exactly when all eight keys are
    present, the six integer fields hold an [int] (or [bool]) in their
    domain ([store_ID >= 0], [1 <= day_of_week <= 7],
    [nb_customers_on_day >= 0], the three flags 0 or 1), [date] holds a
    [str] and [state_holiday] one of "0", "a", "b", "c". *)
Theorem validator_accepts_exactly_valid (d : gmap string json) :
  validation (Scaled := Scaled) type_error_details (JObj d) [] = (Val tt, [])
  <-> valid d = true.
Proof.
  split.
  - intros H. destruct (valid d) eqn:Hv; [reflexivity|].
    destruct (validation_invalid (Scaled := Scaled) type_error_details d [] Hv) as (r & Hr & _).
    rewrite Hr in H. discriminate H.
  - apply validation_valid.
Qed.

(** X2: when no key is missing, the answer to an invalid mapping is the 400
    of the first rule it breaks, in the order store_ID, day_of_week, date,
    nb_customers_on_day, open, promotion, school_holiday, state_holiday;
    what the later fields hold does not matter, and no artifact is called. *)
Theorem first_violation_reported (d : gmap string json) (msg : string) :
  missing d = [] ->
  first_violation d = Some msg ->
  predict' (JObj d) = (bad_request msg, [])
  /\ forall d' : gmap string json,
      missing d' = [] -> first_violation d' = Some msg ->
      predict' (JObj d') = predict' (JObj d).
Proof.
  intros Hm Hf.
  assert (forall d', missing d' = [] -> first_violation d' = Some msg ->
                     predict' (JObj d') = (bad_request msg, [])) as H.
  { intros d' Hm' Hf'. rewrite predict_object. unfold object_answer.
    by rewrite Hm', Hf'. }
  split; [by apply H|]. intros d' Hm' Hf'. by rewrite !H.
Qed.

Lemma filter_absent_ext (d1 d2 : gmap string json) (l : list string) :
  (forall k, k ∈ l -> d1 !! k = d2 !! k) ->
  filter (fun k => d1 !! k = None) l = filter (fun k => d2 !! k = None) l.
Proof.
  induction l as [|k l IH]; intros H; [reflexivity|].
  rewrite !filter_cons, IH by (intros k' Hk'; apply H; by right).
  rewrite (H k) by left. reflexivity.
Qed.

(** X3: the handler reads the eight required keys and nothing else: two
    mappings that agree on them get the same response and make the same
    calls, whatever other keys they carry. *)
Theorem only_required_keys_read (d1 d2 : gmap string json) :
  (forall k, k ∈ required_fields -> d1 !! k = d2 !! k) ->
  predict' (JObj d1) = predict' (JObj d2).
Proof.
  intros Heq. rewrite !predict_object. unfold object_answer.
  assert (missing d1 = missing d2) as Hm by (by apply filter_absent_ext).
  assert (forall k, k ∈ required_fields -> field d1 k = field d2 k) as Hf
      by (intros k Hk; unfold field; by rewrite (Heq k Hk)).
  assert (first_violation d1 = first_violation d2) as Hv.
  { unfold first_violation, field_rules. cbn [find fst snd].
    rewrite !Hf by (unfold required_fields; set_solver). reflexivity. }
  rewrite Hm, Hv. unfold closed_or_empty, feature_vector, model_path, str_of, int_of.
  rewrite !Hf by (unfold required_fields; set_solver). reflexivity.
Qed.

(** X4: [store_ID] is checked and then never used: on a valid mapping, any
    other acceptable [store_ID] gives the same response and the same calls
    to the artifacts. *)
Theorem store_id_not_used (d : gmap string json) (v : json) :
  valid d = true ->
  Py.isinstance_int v = true ->
  0 <= Py.int_value v ->
  valid (<["store_ID" := v]> d) = true
  /\ predict' (JObj (<["store_ID" := v]> d)) = predict' (JObj d).
Proof.
  intros Hv Hi Hz.
  assert (valid (<["store_ID" := v]> d) = true) as Hv'.
  { unfold valid, int_field, str_field in *.
    rewrite lookup_insert_eq. rewrite !lookup_insert_ne by done.
    repeat (apply andb_prop in Hv; destruct Hv as [Hv ?]).
    repeat (apply andb_true_intro; split); try assumption.
    by apply Z.leb_le. }
  split; [exact Hv'|].
  rewrite !predict_valid by assumption.
  unfold closed_or_empty, feature_vector, model_path, str_of, int_of, field.
  rewrite !lookup_insert_ne by done. reflexivity.
Qed.

(** X5: the keys the handler reports missing come in the order of
    [required_fields], each once. *)
Theorem missing_list_ordered (d : gmap string json) (k : string) :
  k ∈ required_fields -> d !! k = None ->
  exists ms,
    fst (predict' (JObj d)) = missing_response ms
    /\ sublist ms required_fields
    /\ NoDup ms
    /\ (0 < length ms <= 8)%nat.
Proof.
  intros Hk Hd. exists (missing d).
  assert (k ∈ missing d) as Hin by (unfold missing; apply list_elem_of_filter; done).
  assert (sublist (missing d) required_fields) as Hsub by apply sublist_filter.
  split; [|split; [exact Hsub|split]].
  - rewrite predict_missing; [reflexivity|]. intros E. rewrite E in Hin.
    by apply elem_of_nil in Hin.
  - unfold missing. apply NoDup_filter. unfold required_fields.
    apply (bool_decide_unpack _). vm_compute. exact I.
  - split.
    + destruct (missing d); [by apply elem_of_nil in Hin|cbn; lia].
    + apply sublist_length in Hsub. exact Hsub.
Qed.

(** X6: an answer to a mapping carries a [message] exactly when the mapping
    is valid and the store is closed or without customers. *)
Theorem message_iff_shortcut (d : gmap string json) :
  is_Some (body (fst (predict' (JObj d))) !! "message")
  <-> valid d = true /\ closed_or_empty d = true.
Proof.
  rewrite valid_iff_cascade, predict_object. unfold object_answer.
  destruct (missing d) as [|k0 ks].
  2:{ split; [intros [x Hx]; vm_compute in Hx; discriminate Hx|].
      intros [[? _] _]. discriminate. }
  destruct (first_violation d) as [msg|].
  { split; [intros [x Hx]; vm_compute in Hx; discriminate Hx|].
    intros [[_ ?] _]. discriminate. }
  destruct (closed_or_empty d).
  { split; [done|]. intros _. by eexists. }
  split; [|intros [_ ?]; discriminate].
  intros [x Hx]. exfalso.
  destruct (Datetime.strptime_ordinal _) as [ord|];
    [|vm_compute in Hx; discriminate Hx].
  unfold model_path in Hx.
  destruct (scaler_transform _) as [e|sx]; [vm_compute in Hx; discriminate Hx|].
  destruct (model_predict sx) as [e|y]; [vm_compute in Hx; discriminate Hx|].
  destruct (int_of d "nb_customers_on_day" <? 200); vm_compute in Hx; discriminate Hx.
Qed.

(** X7: a mapping is answered 500 only when an artifact raised on it, and
    the [details] of the answer are the message of that exception: either
    the scaler raised on the one row it was given, or the scaler returned
    and the model raised on what it returned. *)
Theorem server_error_from_artifact (d : gmap string json) :
  status (fst (predict' (JObj d))) = 500 ->
  exists e v,
    fst (predict' (JObj d)) = internal_error e
    /\ ((scaler_transform [v] = inl e
         /\ snd (predict' (JObj d)) = [CallTransform [v]])
        \/ exists x, scaler_transform [v] = inr x /\ model_predict x = inl e
                     /\ snd (predict' (JObj d)) = [CallTransform [v]; CallPredict x]).
Proof.
  rewrite predict_object. unfold object_answer.
  destruct (missing d) as [|k0 ks]; [|discriminate].
  destruct (first_violation d) as [msg|]; [discriminate|].
  destruct (closed_or_empty d); [discriminate|].
  destruct (Datetime.strptime_ordinal _) as [ord|]; [|discriminate].
  unfold model_path.
  destruct (scaler_transform _) as [e|x] eqn:Hs.
  { intros _. exists e, (feature_vector d ord). split; [reflexivity|]. left. by split. }
  destruct (model_predict x) as [e|y] eqn:Hp.
  { intros _. exists e, (feature_vector d ord). split; [reflexivity|]. right.
    exists x. by repeat split. }
  cbn [fst]. destruct (_ <? 200); discriminate.
Qed.

(** X8: a 200 that is not the shortcut comes from the model: the scaler was
    called once, the model once on what the scaler returned, and the
    [prediction] of the answer is the model's number, rounded; the body has
    no key beyond [prediction] and [warning]. *)
Theorem prediction_from_model (d : gmap string json) :
  status (fst (predict' (JObj d))) = 200 ->
  closed_or_empty d = false ->
  exists v x y,
    snd (predict' (JObj d)) = [CallTransform [v]; CallPredict x]
    /\ scaler_transform [v] = inr x
    /\ model_predict x = inr y
    /\ body (fst (predict' (JObj d))) !! "prediction" = Some (JFloat (round2 y))
    /\ forall k, is_Some (body (fst (predict' (JObj d))) !! k) ->
                 k = "prediction" \/ k = "warning".
Proof.
  rewrite predict_object. unfold object_answer.
  destruct (missing d) as [|k0 ks]; [|discriminate].
  destruct (first_violation d) as [msg|]; [discriminate|].
  intros Hs Hc. rewrite Hc in *. clear Hc. revert Hs.
  destruct (Datetime.strptime_ordinal _) as [ord|]; [|discriminate].
  unfold model_path.
  destruct (scaler_transform _) as [e|x] eqn:Hsc; [discriminate|].
  destruct (model_predict x) as [e|y] eqn:Hp; [discriminate|].
  intros _. exists (feature_vector d ord), x, y. cbn [fst snd].
  split; [reflexivity|]. split; [exact Hsc|]. split; [exact Hp|].
  destruct (_ <? 200).
  - split; [reflexivity|]. intros k [z Hz]. unfold warned_response, jsonify in Hz.
    cbn [body] in Hz. apply lookup_insert_Some in Hz as [[<- _]|[_ Hz]]; [by left|].
    apply lookup_singleton_Some in Hz as [<- _]. by right.
  - split; [reflexivity|]. intros k [z Hz]. unfold plain_response, jsonify in Hz.
    cbn [body] in Hz. apply lookup_singleton_Some in Hz as [<- _]. by left.
Qed.

Lemma filterM_absent (c : string -> M Scaled bool) (has : string -> bool)
    (l : list string) log :
  (forall k, c k = ret (has k)) ->
  filterM (fun k => b <- c k ;; ret (negb b)) l log
  = (Val (filter (fun k => has k = false) l), log).
Proof.
  intros Hc. revert log. induction l as [|k l IH]; intros log; [reflexivity|].
  cbn [filterM]. unfold bind at 1. unfold bind at 1. rewrite Hc. cbn [ret].
  unfold bind at 1. rewrite IH. cbn [ret]. rewrite filter_cons.
  destruct (has k); cbn [negb].
  - rewrite decide_False by discriminate. reflexivity.
  - rewrite decide_True by reflexivity. reflexivity.
Qed.

Lemma eq_str_true (k : string) (x : json) : Py.eq_str k x = true <-> x = JStr k.
Proof.
  destruct x; cbn; try (split; [discriminate|intros [=]]).
  rewrite String.eqb_eq. split; [by intros ->|by intros [= ->]].
Qed.

Lemma existsb_eq_str (k : string) (l : list json) :
  existsb (Py.eq_str k) l = false <-> JStr k ∉ l.
Proof.
  induction l as [|x l IH]; cbn.
  - split; [|done]. intros _ H. by apply elem_of_nil in H.
  - rewrite orb_false_iff, IH, not_elem_of_cons. split.
    + intros [Hx Hl]. split; [|exact Hl]. intros E.
      symmetry in E. apply eq_str_true in E. congruence.
    + intros [Hx Hl]. split; [|exact Hl].
      destruct (Py.eq_str k x) eqn:E; [|reflexivity].
      apply eq_str_true in E. congruence.
Qed.

(** The handler on a payload that answers [k in data] with [has k] and has
    no [data[k]]. *)
Lemma predict_container (data : json) (has : string -> bool) :
  data <> JNull ->
  (forall k, contains Scaled type_error_details data k = ret (has k)) ->
  (forall k, getitem Scaled type_error_details data k = raise (type_error_details data)) ->
  predict' data
  = match filter (fun k => has k = false) required_fields with
    | [] => (internal_error (type_error_details data), [])
    | ms => (missing_response ms, [])
    end.
Proof.
  intros Hn Hc Hg. unfold predict, predict_body, validation.
  unfold bind at 1. rewrite bind_return_if.
  replace (match data with JNull => true | _ => false end) with false
    by (destruct data; done).
  unfold bind at 1.
  rewrite (filterM_absent (contains Scaled type_error_details data) has) by exact Hc.
  rewrite bind_return_if.
  destruct (filter _ required_fields) as [|k0 ks]; [|reflexivity].
  unfold bind at 1. rewrite Hg. reflexivity.
Qed.

Lemma predict_array (l : list json) :
  predict' (JArr l)
  = match filter (fun k => existsb (Py.eq_str k) l = false) required_fields with
    | [] => (internal_error (type_error_details (JArr l)), [])
    | ms => (missing_response ms, [])
    end.
Proof. by apply predict_container. Qed.

Lemma predict_string (s : string) :
  predict' (JStr s)
  = match filter (fun k => bool_decide (is_Some (String.index 0 k s)) = false)
            required_fields with
    | [] => (internal_error (type_error_details (JStr s)), [])
    | ms => (missing_response ms, [])
    end.
Proof. by apply predict_container. Qed.

(** Every answer of the handler has one of seven forms. *)
Lemma answer_forms (data : json) :
  exists r log,
    predict' data = (r, log)
    /\ (r = no_payload_response
        \/ (exists ms, r = missing_response ms)
        \/ (exists msg, r = bad_request msg)
        \/ r = shortcut_response
        \/ (exists e, r = internal_error e)
        \/ (exists y, r = warned_response y)
        \/ (exists y, r = plain_response y)).
Proof.
  destruct data as [|b|z|f|s|l|d].
  - eexists _, _. split; [reflexivity|]. by left.
  - eexists _, _. split; [reflexivity|]. do 4 right. left. by eexists.
  - eexists _, _. split; [reflexivity|]. do 4 right. left. by eexists.
  - eexists _, _. split; [reflexivity|]. do 4 right. left. by eexists.
  - rewrite predict_string. destruct (filter _ _); eexists _, _; (split; [reflexivity|]).
    + do 4 right. left. by eexists.
    + right. left. by eexists.
  - rewrite predict_array. destruct (filter _ _); eexists _, _; (split; [reflexivity|]).
    + do 4 right. left. by eexists.
    + right. left. by eexists.
  - rewrite predict_object. unfold object_answer.
    destruct (missing d).
    2:{ eexists _, _. split; [reflexivity|]. right. left. by eexists. }
    destruct (first_violation d) as [msg|].
    { eexists _, _. split; [reflexivity|]. do 2 right. left. by eexists. }
    destruct (closed_or_empty d).
    { eexists _, _. split; [reflexivity|]. do 3 right. by left. }
    destruct (Datetime.strptime_ordinal _) as [ord|].
    2:{ eexists _, _. split; [reflexivity|]. do 2 right. left. by eexists. }
    unfold model_path.
    destruct (scaler_transform _) as [e|x].
    { eexists _, _. split; [reflexivity|]. do 4 right. left. by eexists. }
    destruct (model_predict x) as [e|y].
    { eexists _, _. split; [reflexivity|]. do 4 right. left. by eexists. }
    destruct (_ <? 200); eexists _, _; (split; [reflexivity|]).
    + do 5 right. left. by eexists.
    + do 6 right. by eexists.
Qed.

(** X9: a payload that is a JSON array or a JSON string is searched for the
    eight names, as elements or as substrings: the names it lacks are
    reported missing with a 400, and a payload that has them all is
    answered 500, since it cannot be indexed by name. No artifact is
    called. *)
Theorem container_payload (l : list json) (s : string) :
  (exists ms,
      (forall k, k ∈ ms <-> k ∈ required_fields /\ JStr k ∉ l)
      /\ predict' (JArr l)
         = match ms with
           | [] => (internal_error (type_error_details (JArr l)), [])
           | _ => (missing_response ms, [])
           end)
  /\ (exists ms,
         (forall k, k ∈ ms <-> k ∈ required_fields /\ String.index 0 k s = None)
         /\ predict' (JStr s)
            = match ms with
              | [] => (internal_error (type_error_details (JStr s)), [])
              | _ => (missing_response ms, [])
              end).
Proof.
  split.
  - exists (filter (fun k => existsb (Py.eq_str k) l = false) required_fields).
    split; [|rewrite predict_array; by destruct (filter _ _)].
    intros k. rewrite list_elem_of_filter, existsb_eq_str. tauto.
  - exists (filter (fun k => bool_decide (is_Some (String.index 0 k s)) = false)
              required_fields).
    split; [|rewrite predict_string; by destruct (filter _ _)].
    intros k. rewrite list_elem_of_filter. split.
    + intros [H Hk]. split; [exact Hk|].
      destruct (String.index 0 k s) eqn:E; [|done].
      rewrite bool_decide_true in H by eauto. discriminate H.
    + intros [Hk H]. split; [|exact Hk].
      rewrite H. apply bool_decide_false. by intros [? ?].
Qed.

(** X10: a payload that is not a mapping never reaches the artifacts and is
    never answered with a prediction: [None] gets the 400 of the missing
    payload, a number or a boolean the 500 of the failed membership test,
    an array or a string a 400 or a 500. *)
Theorem non_mapping_payload (data : json) :
  (forall m, data <> JObj m) ->
  snd (predict' data) = []
  /\ (status (fst (predict' data)) = 400 \/ status (fst (predict' data)) = 500)
  /\ body (fst (predict' data)) !! "prediction" = None
  /\ match data with
     | JNull => fst (predict' data) = no_payload_response
     | JBool _ | JInt _ | JFloat _ =>
         fst (predict' data) = internal_error (type_error_details data)
     | _ => True
     end.
Proof.
  intros Hobj. destruct data as [|b|z|f|s|l|d].
  - repeat split; try reflexivity. by left.
  - repeat split; try reflexivity. by right.
  - repeat split; try reflexivity. by right.
  - repeat split; try reflexivity. by right.
  - rewrite predict_string. destruct (filter _ _).
    + repeat split; try reflexivity. by right.
    + repeat split; try reflexivity. by left.
  - rewrite predict_array. destruct (filter _ _).
    + repeat split; try reflexivity. by right.
    + repeat split; try reflexivity. by left.
  - by destruct (Hobj d).
Qed.

(** X11: whatever the payload, the status tells what the body holds: a 200
    carries a [prediction] and no [error]; any other answer is a 400 or a
    500 and carries an [error] and no [prediction]. *)
Theorem status_matches_body (data : json) :
  (status (fst (predict' data)) = 200
   /\ is_Some (body (fst (predict' data)) !! "prediction")
   /\ body (fst (predict' data)) !! "error" = None)
  \/ ((status (fst (predict' data)) = 400 \/ status (fst (predict' data)) = 500)
      /\ body (fst (predict' data)) !! "prediction" = None
      /\ is_Some (body (fst (predict' data)) !! "error")).
Proof.
  destruct (answer_forms data) as (r & log & -> & Hr). cbn [fst].
  destruct Hr as [->|[[ms ->]|[[msg ->]|[->|[[e ->]|[[y ->]|[y ->]]]]]]].
  - right. split; [by left|]. split; [reflexivity|by eexists].
  - right. split; [by left|]. split; [reflexivity|by eexists].
  - right. split; [by left|]. split; [reflexivity|by eexists].
  - left. split; [reflexivity|]. split; [by eexists|reflexivity].
  - right. split; [by right|]. split; [reflexivity|by eexists].
  - left. split; [reflexivity|]. split; [by eexists|reflexivity].
  - left. split; [reflexivity|]. split; [by eexists|reflexivity].
Qed.

(** X12: whatever the payload, the handler calls each artifact at most
    once, the scaler first and with one row, and the model only on what the
    scaler returned; an answer with status 400 has called nothing, and a
    scaler that raises is answered with its message. *)
Theorem call_protocol (data : json) :
  (snd (predict' data) = []
   \/ (exists v e, snd (predict' data) = [CallTransform [v]]
                   /\ scaler_transform [v] = inl e
                   /\ fst (predict' data) = internal_error e)
   \/ (exists v x, snd (predict' data) = [CallTransform [v]; CallPredict x]
                   /\ scaler_transform [v] = inr x))
  /\ (status (fst (predict' data)) = 400 -> snd (predict' data) = []).
Proof.
  destruct data as [|b|z|f|s|l|d];
    try (split; [by left|reflexivity]).
  - rewrite predict_string. destruct (filter _ _); (split; [by left|reflexivity]).
  - rewrite predict_array. destruct (filter _ _); (split; [by left|reflexivity]).
  - rewrite predict_object. unfold object_answer.
    destruct (missing d); [|split; [by left|reflexivity]].
    destruct (first_violation d) as [msg|]; [split; [by left|reflexivity]|].
    destruct (closed_or_empty d); [split; [by left|reflexivity]|].
    destruct (Datetime.strptime_ordinal _) as [ord|]; [|split; [by left|reflexivity]].
    unfold model_path.
    destruct (scaler_transform _) as [e|x] eqn:Hs.
    { split; [|discriminate]. right. left. by exists (feature_vector d ord), e. }
    destruct (model_predict x) as [e|y].
    { split; [|discriminate]. right. right. by exists (feature_vector d ord), x. }
    split; [right; right; by exists (feature_vector d ord), x|].
    cbn [fst]. destruct (_ <? 200); discriminate.
Qed.

End Cascade.

(** ** The calendar *)

Section Calendar.

Import Datetime.

Lemma days_before_year_next (y : Z) :
  _days_before_year (y + 1) = _days_before_year y + 365 + Z.b2z (_is_leap y).
Proof.
  unfold _days_before_year, _is_leap. cbv zeta.
  replace (y + 1 - 1) with y by lia.
  destruct (Z.eqb_spec (y mod 4) 0), (Z.eqb_spec (y mod 100) 0), (Z.eqb_spec (y mod 400) 0);
    cbn [negb andb orb Z.b2z]; Z.div_mod_to_equations; lia.
Qed.

Lemma days_before_year_mono (y y' : Z) :
  1 <= y -> y <= y' -> _days_before_year y <= _days_before_year y'.
Proof.
  intros Hy Hle. unfold _days_before_year. cbv zeta.
  Z.div_mod_to_equations. lia.
Qed.

Lemma day_of_year_range (y m d : Z) :
  1 <= m <= 12 -> 1 <= d <= _days_in_month y m ->
  1 <= _days_before_month y m + d <= 365 + Z.b2z (_is_leap y).
Proof.
  intros Hm Hd. unfold _days_before_month, _days_in_month in *.
  assert (m = 1 \/ m = 2 \/ m = 3 \/ m = 4 \/ m = 5 \/ m = 6 \/ m = 7 \/ m = 8
          \/ m = 9 \/ m = 10 \/ m = 11 \/ m = 12) as Hc by lia.
  destruct (_is_leap y);
    repeat (destruct Hc as [->|Hc]; [simpl in *; lia|]); subst; simpl in *; lia.
Qed.

Lemma ymd2ord_inv (y m d o : Z) :
  _ymd2ord y m d = Some o ->
  1 <= y <= 9999 /\ 1 <= m <= 12 /\ 1 <= d <= _days_in_month y m
  /\ o = _days_before_year y + _days_before_month y m + d.
Proof.
  unfold _ymd2ord.
  destruct (negb ((1 <=? y) && _)) eqn:Hy; [discriminate|].
  destruct (negb ((1 <=? m) && _)) eqn:Hm; [discriminate|].
  destruct (negb ((1 <=? d) && _)) eqn:Hd; [discriminate|].
  intros [= <-].
  apply negb_false_iff, andb_prop in Hy as [Hy1%Z.leb_le Hy2%Z.leb_le].
  apply negb_false_iff, andb_prop in Hm as [Hm1%Z.leb_le Hm2%Z.leb_le].
  apply negb_false_iff, andb_prop in Hd as [Hd1%Z.leb_le Hd2%Z.leb_le].
  repeat split; assumption.
Qed.

Lemma ymd2ord_range (y m d o : Z) :
  _ymd2ord y m d = Some o -> 1 <= o <= max_ordinal.
Proof.
  intros (Hy & Hm & Hd & ->)%ymd2ord_inv.
  pose proof (day_of_year_range y m d Hm Hd) as Hr.
  pose proof (days_before_year_next y) as Hn.
  pose proof (days_before_year_mono 1 y ltac:(lia) ltac:(lia)) as H1.
  pose proof (days_before_year_mono (y + 1) 10000 ltac:(lia) ltac:(lia)) as H2.
  change (_days_before_year 1) with 0 in H1.
  change (_days_before_year 10000) with 3652059 in H2.
  unfold max_ordinal. lia.
Qed.

Lemma ymd2ord_mono (y m d o y' m' d' o' : Z) :
  _ymd2ord y m d = Some o -> _ymd2ord y' m' d' = Some o' ->
  earlier (y, m, d) (y', m', d') ->
  o < o'.
Proof.
  intros (Hy & Hm & Hd & ->)%ymd2ord_inv (Hy' & Hm' & Hd' & ->)%ymd2ord_inv.
  unfold earlier. intros [Hlt|[<- Hlt]].
  - pose proof (day_of_year_range y m d Hm Hd) as Hr.
    pose proof (day_of_year_range y' m' d' Hm' Hd') as Hr'.
    pose proof (days_before_year_next y) as Hn.
    pose proof (days_before_year_mono (y + 1) y' ltac:(lia) ltac:(lia)) as H2.
    lia.
  - destruct Hlt as [Hlt|[<- Hlt]]; [|lia].
    clear Hy Hy'.
    unfold _days_before_month, _days_in_month in *.
    assert (m = 1 \/ m = 2 \/ m = 3 \/ m = 4 \/ m = 5 \/ m = 6 \/ m = 7 \/ m = 8
            \/ m = 9 \/ m = 10 \/ m = 11 \/ m = 12) as Hc by lia.
    assert (m' = 1 \/ m' = 2 \/ m' = 3 \/ m' = 4 \/ m' = 5 \/ m' = 6 \/ m' = 7 \/ m' = 8
            \/ m' = 9 \/ m' = 10 \/ m' = 11 \/ m' = 12) as Hc' by lia.
    destruct (_is_leap y);
      repeat (destruct Hc as [->|Hc]);
      repeat (destruct Hc' as [->|Hc']);
      subst; try lia; simpl in *; lia.
Qed.

Lemma strptime_ordinal_ymd (s : string) :
  strptime_ordinal s
  = match strptime_ymd s with
    | Some (y, m, d) => _ymd2ord y m d
    | None => None
    end.
Proof.
  unfold strptime_ordinal, strptime_ymd.
  destruct (re_match _ _) as [[[|d [|m [|Y [|? ?]]]] [|? ?]]|]; reflexivity.
Qed.

(** X13: the ordinal grows with the calendar: of two date strings that
    parse, the one with the earlier year, month, day has the smaller
    ordinal, and two strings with the same ordinal name the same day. *)
Theorem ordinal_follows_calendar (s s' : string) (o o' : Z) :
  strptime_ordinal s = Some o ->
  strptime_ordinal s' = Some o' ->
  exists a a',
    strptime_ymd s = Some a /\ strptime_ymd s' = Some a'
    /\ (earlier a a' -> o < o')
    /\ (o = o' -> a = a').
Proof.
  rewrite !strptime_ordinal_ymd.
  destruct (strptime_ymd s) as [[[y m] d]|]; [|discriminate].
  destruct (strptime_ymd s') as [[[y' m'] d']|]; [|discriminate].
  intros Ho Ho'. exists (y, m, d), (y', m', d').
  split; [reflexivity|]. split; [reflexivity|]. split.
  - by apply (ymd2ord_mono y m d o y' m' d' o').
  - intros <-.
    assert (~ earlier (y, m, d) (y', m', d')) as H1
        by (intros H; pose proof (ymd2ord_mono _ _ _ _ _ _ _ _ Ho Ho' H); lia).
    assert (~ earlier (y', m', d') (y, m, d)) as H2
        by (intros H; pose proof (ymd2ord_mono _ _ _ _ _ _ _ _ Ho' Ho H); lia).
    unfold earlier in H1, H2.
    assert (y = y' /\ m = m' /\ d = d') as (-> & -> & ->) by lia.
    reflexivity.
Qed.

End Calendar.

Section Ordinals.

Context {Scaled : Type}.
Variable scaler_transform : list (list json) -> string + Scaled.
Variable model_predict : Scaled -> string + spec_float.
Variable round2 : spec_float -> spec_float.
Variable type_error_details : json -> string.

(** X14: the first component of every row given to the scaler is the
    ordinal of the request's date, an [int] between 1 (01/01/0001) and
    3652059 (31/12/9999). *)
Theorem date_ordinal_in_range (d : gmap string json) (v : list json) :
  CallTransform [v]
    ∈ snd (predict scaler_transform model_predict round2 type_error_details (JObj d)) ->
  exists ord,
    v !! 0%nat = Some (JInt ord)
    /\ Datetime.strptime_ordinal (str_of d "date") = Some ord
    /\ 1 <= ord <= max_ordinal.
Proof.
  intros Hin. apply transform_calls in Hin as (_ & _ & ord & Ho & Hb).
  injection Hb as ->. exists ord. split; [reflexivity|]. split; [exact Ho|].
  rewrite strptime_ordinal_ymd in Ho.
  destruct (strptime_ymd _) as [[[y m] dd]|]; [|discriminate].
  by apply ymd2ord_range in Ho.
Qed.

End Ordinals.

(** ** The further theorems at concrete requests *)

Lemma validator_accepts_exactly_valid_witness :
  validation (Scaled := list (list Z)) fake_details (JObj example_request) [] = (Val tt, []).
Proof.
  apply (validator_accepts_exactly_valid fake_details example_request).
  vm_compute. reflexivity.
Defined.

Lemma first_violation_reported_witness :
  predict_fake (JObj (<["day_of_week" := JInt 8]> example_request))
  = (bad_request "day_of_week must be an integer between 1 and 7", []).
Proof.
  apply (first_violation_reported fake_transform fake_predict fake_round fake_details
           (<["day_of_week" := JInt 8]> example_request)
           "day_of_week must be an integer between 1 and 7").
  - vm_compute. reflexivity.
  - vm_compute. reflexivity.
Defined.

Lemma only_required_keys_read_witness :
  predict_fake (JObj example_request) = predict_fake (JObj annotated_request).
Proof.
  apply (only_required_keys_read fake_transform fake_predict fake_round fake_details
           example_request annotated_request).
  intros k Hk. unfold required_fields in Hk.
  repeat (apply elem_of_cons in Hk as [->|Hk]; [vm_compute; reflexivity|]).
  by apply elem_of_nil in Hk.
Defined.

Lemma store_id_not_used_witness :
  predict_fake (JObj (<["store_ID" := JInt 7]> example_request))
  = predict_fake (JObj example_request).
Proof.
  apply (store_id_not_used fake_transform fake_predict fake_round fake_details
           example_request (JInt 7)).
  - vm_compute. reflexivity.
  - reflexivity.
  - cbn. lia.
Defined.

Lemma missing_list_ordered_witness :
  exists ms,
    fst (predict_fake (JObj partial_request)) = missing_response ms
    /\ sublist ms required_fields
    /\ NoDup ms
    /\ (0 < length ms <= 8)%nat.
Proof.
  apply (missing_list_ordered fake_transform fake_predict fake_round fake_details
           partial_request "promotion").
  - unfold required_fields. do 5 right. left.
  - vm_compute. reflexivity.
Defined.

Lemma message_iff_shortcut_witness :
  is_Some (body (fst (predict_fake (JObj closed_request))) !! "message").
Proof.
  apply (message_iff_shortcut fake_transform fake_predict fake_round fake_details
           closed_request).
  split; vm_compute; reflexivity.
Defined.

Lemma server_error_from_artifact_witness :
  exists e v,
    fst (predict_failing (JObj example_request)) = internal_error e
    /\ ((failing_transform [v] = inl e
         /\ snd (predict_failing (JObj example_request)) = [CallTransform [v]])
        \/ exists x, failing_transform [v] = inr x
                     /\ inl "model unavailable" = inl (B := spec_float) e
                     /\ snd (predict_failing (JObj example_request))
                        = [CallTransform [v]; CallPredict x]).
Proof.
  apply (server_error_from_artifact failing_transform (fun _ => inl "model unavailable")
           fake_round fake_details example_request).
  vm_compute. reflexivity.
Defined.

Lemma prediction_from_model_witness :
  exists v x y,
    snd (predict_fake (JObj example_request)) = [CallTransform [v]; CallPredict x]
    /\ fake_transform [v] = inr x
    /\ fake_predict x = inr y
    /\ body (fst (predict_fake (JObj example_request))) !! "prediction"
       = Some (JFloat (fake_round y)).
Proof.
  destruct (prediction_from_model fake_transform fake_predict fake_round fake_details
              example_request) as (v & x & y & H1 & H2 & H3 & H4 & _).
  - vm_compute. reflexivity.
  - vm_compute. reflexivity.
  - exists v, x, y. repeat split; assumption.
Defined.

Lemma non_mapping_payload_witness :
  snd (predict_fake (JInt 3)) = []
  /\ fst (predict_fake (JInt 3)) = internal_error (fake_details (JInt 3)).
Proof.
  destruct (non_mapping_payload fake_transform fake_predict fake_round fake_details
              (JInt 3)) as (H1 & _ & _ & H2).
  - discriminate.
  - split; assumption.
Defined.

Lemma call_protocol_witness :
  status (fst (predict_fake (JObj unparseable_request))) = 400
  /\ snd (predict_fake (JObj unparseable_request)) = [].
Proof.
  assert (status (fst (predict_fake (JObj unparseable_request))) = 400) as H
      by (vm_compute; reflexivity).
  split; [exact H|].
  apply (call_protocol fake_transform fake_predict fake_round fake_details
           (JObj unparseable_request)), H.
Defined.

Lemma ordinal_follows_calendar_witness :
  exists a a',
    strptime_ymd "01/01/2014" = Some a /\ strptime_ymd "01/01/2015" = Some a'
    /\ (earlier a a' -> 735234 < 735599)
    /\ (735234 = 735599 -> a = a').
Proof.
  apply (ordinal_follows_calendar "01/01/2014" "01/01/2015" 735234 735599).
  - vm_compute. reflexivity.
  - vm_compute. reflexivity.
Defined.

Lemma date_ordinal_in_range_witness :
  exists ord,
    example_vector !! 0%nat = Some (JInt ord)
    /\ Datetime.strptime_ordinal (str_of example_request "date") = Some ord
    /\ 1 <= ord <= max_ordinal.
Proof.
  apply (date_ordinal_in_range fake_transform fake_predict fake_round fake_details
           example_request example_vector).
  vm_compute. left.
Defined.
